(** * pydho800: waveform acquisition and decoding of the Rigol DHO800 driver

    A shallow embedding of [src/pydho800/pydho800.py] (class [PYDHO800]):
    the scale resolver [_set_channel_scale], the capture routine
    [_query_waveform] with its preamble decoder, its sample-stream repair loop
    and its two time-axis builders, and the stability-gated measurement
    [get_channel_measurement].

    Python values are modelled as the code has them: [str] as [string]
    (instrument replies are ASCII, so characters are bytes), [int] as [Z],
    [float] as the kernel's binary64 [float], exceptions as an error type,
    the SCPI transport as an explicit state that logs what was sent and hands
    out the instrument's replies. *)

From Stdlib Require Import ZArith Lia List String Ascii Bool.
From Stdlib Require Import PrimFloat SpecFloat FloatOps.
From stdpp Require Import base option list sorting strings pretty gmap.

Set Warnings "-inexact-float".

Local Open Scope string_scope.
Local Open Scope list_scope.
Local Open Scope Z_scope.

(** ** The fragment of the Python runtime the driver relies on

    Text is ASCII throughout: [len] counts characters, and [int] and [float]
    read ASCII literals the way CPython does (white space on both ends, a
    sign, digits with single underscores between them, for [int] at most
    4300 digits, for floats a point, an exponent, [inf], [infinity] and
    [nan]), [float] rounding to the nearest binary64.  [float] of an [int]
    raises [OverflowError] beyond the binary64 range. *)

Module Py.

(** Exceptions.  A [CommunicationError_ProtocolViolation] keeps the pieces of
    its formatted message in [violation] instead of the rendered text. *)
Inductive item : Type :=
  | PStr (s : string)
  | PFloat (f : float).

Inductive violation : Type :=
  | FailedQueryTrace
  | UnknownPreambleFormat
  | WrongFormat (field0 : string)
  | WrongDataType (field1 : string)
  | GlitchFix (data : item) (first_num second_num : string)
  | MustStopForRaw
  | FailedProbeRatioQuery
  | UnsupportedProbeRatio (resp : float)
  | FailedMeasurement
  | NoValidResponse (query : string)
  | NoValidXScaleReply.

Inductive value_error : Type :=
  | BadLiteral (builtin text : string)
  | ChannelOutOfRange (channel : Z)
  | ChannelOutOfBounds (channel : Z)
  | InvalidChannelNumber
  | InvalidRefchannelNumber
  | UnsupportedMeasurementType (type : string)
  | MissingChannelParameter
  | MissingRefchannelParameter (type : string)
  | ScaleOutOfRange.

Inductive exn : Type :=
  | ValueError (why : value_error)
  | TypeError (what : string)
  | IndexError
  | UnboundLocalError (var : string)
  | KeyError (key : string)
  | OverflowError (what : string)
  | CommunicationError_ProtocolViolation (why : violation).

(** *** Characters and [str] methods *)

Definition code (c : ascii) : Z := Z.of_N (N_of_ascii c).

Definition is_digit (c : ascii) : bool := (48 <=? code c) && (code c <=? 57).

(** The white space [int] and [float] skip on both ends of an ASCII text:
    tab, line feed, vertical tab, form feed, carriage return and space. *)
Definition is_space (c : ascii) : bool :=
  ((9 <=? code c) && (code c <=? 13)) || (code c =? 32).

Definition lower (c : ascii) : ascii :=
  if (65 <=? code c) && (code c <=? 90)
  then ascii_of_N (N_of_ascii c + 32) else c.

Definition ascii_eqb (a b : ascii) : bool := Ascii.eqb a b.

Fixpoint lstrip (l : list ascii) : list ascii :=
  match l with
  | c :: r => if is_space c then lstrip r else l
  | [] => []
  end.

(** The text without the white space on its two ends. *)
Definition strip (l : list ascii) : list ascii :=
  rev (lstrip (rev (lstrip l))).

(** [s.split(sep)] for a one-character separator: always at least one piece. *)
Fixpoint split (sep : ascii) (s : string) : list string :=
  match s with
  | EmptyString => [EmptyString]
  | String c r =>
      if ascii_eqb c sep then EmptyString :: split sep r
      else match split sep r with
           | p :: ps => String c p :: ps
           | [] => [String c EmptyString]
           end
  end.

(** [s.split(sep, 1)]: cut at the first separator only. *)
Fixpoint split1 (sep : ascii) (s : string) : list string :=
  match s with
  | EmptyString => [EmptyString]
  | String c r =>
      if ascii_eqb c sep then [EmptyString; r]
      else match split1 sep r with
           | p :: ps => String c p :: ps
           | [] => [String c EmptyString]
           end
  end.

(** The slices [s[:n]] and [s[n:]]. *)
Fixpoint slice_to (n : nat) (s : string) : string :=
  match n, s with
  | S k, String c r => String c (slice_to k r)
  | _, _ => EmptyString
  end.

Fixpoint slice_from (n : nat) (s : string) : string :=
  match n, s with
  | S k, String _ r => slice_from k r
  | _, _ => s
  end.

(** *** Numeric literals: [int(str)] and [float(str)] *)

Definition sign_of (l : list ascii) : bool * list ascii :=
  match l with
  | c :: r =>
      if ascii_eqb c "-" then (true, r)
      else if ascii_eqb c "+" then (false, r)
      else (false, l)
  | [] => (false, l)
  end.

Fixpoint span_digits (l : list ascii) : list ascii * list ascii :=
  match l with
  | c :: r =>
      if is_digit c then let '(ds, rest) := span_digits r in (c :: ds, rest)
      else ([], l)
  | [] => ([], [])
  end.

Definition digits_value (ds : list ascii) : Z :=
  fold_left (fun acc d => 10 * acc + (code d - 48)) ds 0.

(** Underscores may only sit between two digits; they are dropped before the
    literal is read.  [prev] is the character before the current one. *)
Fixpoint drop_underscores (prev : option ascii) (l : list ascii)
  : option (list ascii) :=
  let after_digit := match prev with Some p => is_digit p | None => false end in
  let after_underscore :=
    match prev with Some p => ascii_eqb p "_" | None => false end in
  match l with
  | [] => if after_underscore then None else Some []
  | c :: r =>
      if ascii_eqb c "_" then
        if after_digit then drop_underscores (Some c) r else None
      else if after_underscore && negb (is_digit c) then None
      else option_map (cons c) (drop_underscores (Some c) r)
  end.

(** [sys.int_info.default_max_str_digits]. *)
Definition max_str_digits : nat := 4300.

(** [int(s)] in base 10; [None] stands for its [ValueError], which a text
    with more than [max_str_digits] digits gets as well. *)
Definition int_of_chars (l : list ascii) : option Z :=
  let '(neg, body) := sign_of (strip l) in
  match drop_underscores None body with
  | Some ds =>
      match span_digits ds with
      | (d :: ds', []) =>
          if Nat.ltb max_str_digits (List.length (d :: ds')) then None
          else let v := digits_value (d :: ds') in Some (if neg then - v else v)
      | _ => None
      end
  | None => None
  end.

Definition int (s : string) : option Z :=
  int_of_chars (list_ascii_of_string s).

(** The decimal [m * 10^e10] rounded to the nearest binary64, ties to even.
    The quotient is first taken with more than 64 significant bits and a
    sticky last bit, which [binary_normalize] then rounds once.  Exponents
    that put the value beyond the format on either side are cut off before
    any power of ten is computed. *)
Definition round_decimal (neg : bool) (m e10 : Z) : spec_float :=
  if m =? 0 then S754_zero neg
  else if 310 <? e10 then S754_infinity neg
  else if e10 + (Z.log2 m + 1) / 3 + 1 <? -330 then S754_zero neg
  else
    let num := if 0 <=? e10 then m * 10 ^ e10 else m in
    let den := if 0 <=? e10 then 1 else 10 ^ (- e10) in
    let k := Z.max 0 (66 + Z.log2 den - Z.log2 num) in
    let q := (num * 2 ^ k) / den in
    let sticky := if (num * 2 ^ k) mod den =? 0 then 0 else 1 in
    let mant := 2 * q + sticky in
    binary_normalize prec emax (if neg then - mant else mant) (- k - 1) neg.

Definition lowered (l : list ascii) : string :=
  string_of_list_ascii (map lower l).

(** A decimal literal: digits, an optional point and digits, an optional
    exponent; at least one digit before the exponent. *)
Definition decimal_of_chars (l : list ascii) : option (Z * Z) :=
  let '(ip, r1) := span_digits l in
  let '(fp, r2) :=
    match r1 with
    | c :: r => if ascii_eqb c "." then span_digits r else ([], r1)
    | [] => ([], r1)
    end in
  let m := digits_value (ip ++ fp)%list in
  let shift := Z.of_nat (List.length fp) in
  match (ip ++ fp)%list, r2 with
  | [], _ => None
  | _, [] => Some (m, - shift)
  | _, c :: r3 =>
      if ascii_eqb (lower c) "e" then
        let '(eneg, r4) := sign_of r3 in
        match span_digits r4 with
        | (d :: ds, []) =>
            let e := digits_value (d :: ds) in
            Some (m, (if eneg then - e else e) - shift)
        | _ => None
        end
      else None
  end.

Definition float_of_chars (l : list ascii) : option float :=
  match drop_underscores None (strip l) with
  | Some body =>
      let '(neg, r) := sign_of body in
      let name := lowered r in
      if String.eqb name "inf" || String.eqb name "infinity"
      then Some (if neg then neg_infinity else infinity)
      else if String.eqb name "nan" then Some nan
      else match decimal_of_chars r with
           | Some (m, e10) => Some (SF2Prim (round_decimal neg m e10))
           | None => None
           end
  | None => None
  end.

(** [float(s)] for a [str] argument. *)
Definition float (s : string) : option PrimFloat.float :=
  float_of_chars (list_ascii_of_string s).

(** The binary64 nearest to the [int] [n], ties to even: what [float(n)]
    returns when it returns. *)
Definition float_of_int (n : Z) : PrimFloat.float :=
  SF2Prim (binary_normalize prec emax n 0 false).

(** The least magnitude that rounds beyond the largest finite binary64. *)
Definition float_overflow_bound : Z := 2 ^ 1024 - 2 ^ 970.

(** A number of the source: an [int] or a [float]. *)
Inductive num : Type :=
  | NInt (n : Z)
  | NFloat (x : PrimFloat.float).

(** The value of a number as a binary64, used for the entries of the
    source's literal lists, which all convert. *)
Definition as_float (v : num) : PrimFloat.float :=
  match v with
  | NInt n => float_of_int n
  | NFloat x => x
  end.

(** [float(v)] for a number: a [float] is returned as it is, an [int] is
    rounded, and [None] stands for the [OverflowError] of an [int] too large
    to convert. *)
Definition float_of_num (v : num) : option PrimFloat.float :=
  match v with
  | NInt n =>
      if Z.abs n <? float_overflow_bound then Some (float_of_int n) else None
  | NFloat x => Some x
  end.

(** [a == b] on numbers, by value. *)
Definition num_eqb (a b : num) : bool :=
  match a, b with
  | NInt m, NInt n => m =? n
  | _, _ => PrimFloat.eqb (as_float a) (as_float b)
  end.

(** [x in l] and [x not in l] for a list of numbers. *)
Definition num_in (x : num) (l : list num) : bool := existsb (num_eqb x) l.

End Py.

(** ** The SCPI transport

    [scpiCommand] sends a text and returns nothing; [scpiQuery] sends a text
    and returns the reply, or [None] when there is none.  The link records
    what was sent, in order, and holds the replies the instrument will give.
    A formatted string literal is kept as its pieces. *)

Module Scpi.

Inductive piece : Type :=
  | Lit (s : string)
  | FInt (n : Z)
  | FNum (v : Py.num)
  | FStr (s : string).

Definition fstring : Type := list piece.

Inductive sent : Type :=
  | Command (text : fstring)
  | Query (text : fstring).

Record link : Type := Link {
  log : list sent;
  replies : list (option string)
}.

Inductive outcome (A : Type) : Type :=
  | Return (a : A)
  | Raise (e : Py.exn)
  | OutOfFuel.
Arguments Return {A} a.
Arguments Raise {A} e.
Arguments OutOfFuel {A}.

(** Computations that talk to the instrument and may raise. *)
Definition M (A : Type) : Type := link -> outcome A * link.

Definition ret {A} (a : A) : M A := fun l => (Return a, l).

Definition raise {A} (e : Py.exn) : M A := fun l => (Raise e, l).

Definition bind {A B} (c : M A) (k : A -> M B) : M B :=
  fun l =>
    match c l with
    | (Return a, l') => k a l'
    | (Raise e, l') => (Raise e, l')
    | (OutOfFuel, l') => (OutOfFuel, l')
    end.

Definition lift {A} (o : outcome A) : M A := fun l => (o, l).

Definition scpiCommand (text : fstring) : M unit :=
  fun l => (Return tt, {| log := log l ++ [Command text]; replies := replies l |}).

Definition scpiQuery (text : fstring) : M (option string) :=
  fun l =>
    match replies l with
    | r :: rs => (Return r, {| log := log l ++ [Query text]; replies := rs |})
    | [] => (Return None, {| log := log l ++ [Query text]; replies := [] |})
    end.

End Scpi.

Import Scpi.

Notation "'let!' x ':=' c 'in' k" := (Scpi.bind c (fun x => k))
  (at level 10, x name, c at level 100, k at level 200).
Notation "'run!' c 'in' k" := (Scpi.bind c (fun _ => k))
  (at level 10, c at level 100, k at level 200).

(** ** The driver: class [PYDHO800] *)

Inductive OscilloscopeRunMode : Type := STOP | RUN | SINGLE.

Inductive OscilloscopeMeasurementType : Type :=
  | VPP | RRPH | FFPH | VMIN | VMAX | VRMS | VAVG | OVER | FREQ | PER.

(** The attributes of [self] that the modelled methods read.  [_nchannels]
    is what the base class keeps of [nChannels], 4 for this driver. *)
Record PYDHO800 : Type := {
  _rawMode : bool;
  _samplePoints : Z;
  _use_numpy : bool;
  _nchannels : Z
}.

Definition violation {A} (why : Py.violation) : M A :=
  raise (Py.CommunicationError_ProtocolViolation why).

Definition _get_run_mode : M (option OscilloscopeRunMode) :=
  let! resp := scpiQuery [Lit ":TRIG:STAT?"] in
  ret match resp with
      | Some r =>
          if String.eqb r "STOP" then Some STOP
          else if String.eqb r "RUN" || String.eqb r "AUTO" then Some RUN
          else if String.eqb r "WAIT" then Some RUN
          else None
      | None => None
      end.

Definition run_mode_is_stop (m : option OscilloscopeRunMode) : bool :=
  match m with Some STOP => true | _ => false end.

(** *** Probe ratio and vertical scale *)

Definition supported_probe_ratios : list Py.num :=
  [ Py.NFloat 0.0001; Py.NFloat 0.0002; Py.NFloat 0.0005; Py.NFloat 0.001;
    Py.NFloat 0.002; Py.NFloat 0.005; Py.NFloat 0.01; Py.NFloat 0.02;
    Py.NFloat 0.05; Py.NFloat 0.1; Py.NFloat 0.2; Py.NFloat 0.5;
    Py.NInt 1; Py.NInt 2; Py.NInt 5; Py.NInt 10; Py.NInt 20; Py.NInt 50;
    Py.NInt 100; Py.NInt 200; Py.NInt 500; Py.NInt 1000; Py.NInt 2000;
    Py.NInt 5000; Py.NInt 10000; Py.NInt 20000; Py.NInt 50000 ].

Definition channel_text (channel : Z) (tail : string) : fstring :=
  [Lit ":CHAN"; FInt (channel + 1); Lit tail].

Definition _get_channel_probe_ratio (channel : Z) : M (option float) :=
  if (channel <? 0) || (channel >? 3)
  then raise (Py.ValueError (Py.ChannelOutOfBounds channel))
  else
    let! resp := scpiQuery (channel_text channel ":PROB?") in
    match resp with
    | None => ret None
    | Some text =>
        match Py.float text with
        | None => ret None
        | Some r =>
            if negb (Py.num_in (Py.NFloat r) supported_probe_ratios)
            then violation (Py.UnsupportedProbeRatio r)
            else ret (Some r)
        end
    end.

Definition setableScales : list Py.num :=
  [ Py.NFloat 500e-6; Py.NFloat 1e-3; Py.NFloat 2e-3; Py.NFloat 5e-3;
    Py.NFloat 1e-2; Py.NFloat 2e-2; Py.NFloat 5e-2; Py.NFloat 1e-1;
    Py.NFloat 2e-1; Py.NFloat 5e-1; Py.NInt 1; Py.NInt 2; Py.NInt 5;
    Py.NInt 10 ].

(** The [for _scale in setableScales] loop, from [match_scale = 0].  The
    requested [scale] is a float already; [float(_scale)] is [Py.as_float],
    every entry of the list being within the float range. *)
Definition scan_scales (scales : list Py.num) (scale : float)
    (match_scale : Py.num) : Py.num :=
  fold_left
    (fun m _scale => if PrimFloat.ltb (Py.as_float _scale) scale then _scale else m)
    scales match_scale.

Definition match_scale_for (scale : float) : Py.num :=
  scan_scales setableScales scale (Py.NInt 0).

Definition _set_channel_scale (channel : Z) (scale : Py.num) : M unit :=
  if (channel <? 0) || (channel >? 3)
  then raise (Py.ValueError (Py.ChannelOutOfBounds channel))
  else
    match Py.float_of_num scale with
    | None => raise (Py.OverflowError "int too large to convert to float")
    | Some scale =>
        let! currentProbeRatio := _get_channel_probe_ratio channel in
        match currentProbeRatio with
        | None => violation Py.FailedProbeRatioQuery
        | Some ratio =>
            let scale := PrimFloat.div scale ratio in
            let match_scale := match_scale_for scale in
            if negb (Py.num_in match_scale setableScales)
            then raise (Py.ValueError Py.ScaleOutOfRange)
            else scpiCommand [Lit ":CHAN"; FInt (channel + 1); Lit ":SCAL ";
                              FNum match_scale]
        end
    end.

(** *** Waveform capture: preamble *)

(** [_waveform_get_xscale], which reads the same three x-axis values by
    separate queries: there a reply that is no float literal is turned into a
    protocol violation. *)
Definition _waveform_get_xscale : M (float * float * float) :=
  let! xinc := scpiQuery [Lit ":WAV:XINC?"] in
  match xinc with
  | None => violation (Py.NoValidResponse "XINC")
  | Some xinc =>
      let! xorigin := scpiQuery [Lit ":WAV:XOR?"] in
      match xorigin with
      | None => violation (Py.NoValidResponse "XORIGIN")
      | Some xorigin =>
          let! xref := scpiQuery [Lit ":WAV:XREF?"] in
          match xref with
          | None => violation (Py.NoValidResponse "XREF")
          | Some xref =>
              match Py.float xinc, Py.float xorigin, Py.float xref with
              | Some xinc, Some xorigin, Some xref => ret (xinc, xorigin, xref)
              | _, _, _ => violation Py.NoValidXScaleReply
              end
          end
      end
  end.

Definition and_then {A B} (o : outcome A) (k : A -> outcome B) : outcome B :=
  match o with
  | Return a => k a
  | Raise e => Raise e
  | OutOfFuel => OutOfFuel
  end.

Notation "'let?' x ':=' o 'in' k" := (and_then o (fun x => k))
  (at level 10, x name, o at level 100, k at level 200).

(** [int(s)] and [float(s)] as statements: a bad literal raises [ValueError]. *)
Definition int_stmt (s : string) : outcome Z :=
  match Py.int s with
  | Some n => Return n
  | None => Raise (Py.ValueError (Py.BadLiteral "int" s))
  end.

Definition float_stmt (s : string) : outcome float :=
  match Py.float s with
  | Some x => Return x
  | None => Raise (Py.ValueError (Py.BadLiteral "float" s))
  end.

(** What the preamble section of [_query_waveform] computes.  The source
    keeps the last eight values in local variables; the two tags it only
    tests are recorded here as [format] and [data_type]. *)
Record preamble : Type := {
  format : Z;
  data_type : Z;
  points : Z;
  avgcount : Z;
  xinc : float;
  xorigin : float;
  xref : float;
  yinc : float;
  yorigin : float;
  yref : float
}.

Definition protocol_violation {A} (why : Py.violation) : outcome A :=
  Raise (Py.CommunicationError_ProtocolViolation why).

Definition parse_preamble (resppre : string) : outcome preamble :=
  match Py.split "," resppre with
  | [p0; p1; p2; p3; p4; p5; p6; p7; p8; p9] =>
      let? fmt := int_stmt p0 in
      if negb (fmt =? 2) then protocol_violation (Py.WrongFormat p0)
      else
        let? ty := int_stmt p1 in
        if negb (ty =? 0) && negb (ty =? 2)
        then protocol_violation (Py.WrongDataType p1)
        else
          let? points := int_stmt p2 in
          let? avgcount := int_stmt p3 in
          let? xinc := float_stmt p4 in
          let? xorigin := float_stmt p5 in
          let? xref := float_stmt p6 in
          let? yinc := float_stmt p7 in
          let? yorigin := float_stmt p8 in
          let? yref := float_stmt p9 in
          Return {| format := fmt; data_type := ty; points := points;
                    avgcount := avgcount; xinc := xinc; xorigin := xorigin;
                    xref := xref; yinc := yinc; yorigin := yorigin;
                    yref := yref |}
  | _ => protocol_violation Py.UnknownPreambleFormat
  end.

(** *** Waveform capture: the sample stream and its repair loop *)

(** The variables the [while] loop reads and writes.  [first_num] and
    [second_num] are unbound until the repair branch has assigned them. *)
Record decoder : Type := {
  wavedata : list Py.item;
  i : nat;
  first_num : option string;
  second_num : option string
}.

(** [l.insert(k, x)]. *)
Definition list_insert_at {A} (k : nat) (x : A) (l : list A) : list A :=
  take k l ++ x :: drop k l.

(** How the [try] block ends: it ran to its end, or something in it raised,
    with the variables as they were at that moment. *)
Inductive attempt : Type :=
  | Completed (st : decoder)
  | Caught (st : decoder).

Definition try_block (st : decoder) : attempt :=
  match wavedata st !! i st with
  | None => Caught st
  | Some (Py.PFloat _) => Caught st
  | Some (Py.PStr token) =>
      if (14 <? String.length token)%nat then
        match Py.split1 "e" token with
        | head :: tail :: _ =>
            let fn := (head ++ "e" ++ Py.slice_to 3 tail)%string in
            let sn := Py.slice_from 3 tail in
            let popped := delete (i st) (wavedata st) in
            let st1 := {| wavedata := popped; i := i st;
                          first_num := Some fn; second_num := Some sn |} in
            match Py.float fn with
            | None => Caught st1
            | Some f1 =>
                let one := list_insert_at (i st) (Py.PFloat f1) popped in
                match Py.float sn with
                | None =>
                    Caught {| wavedata := one; i := i st;
                              first_num := Some fn; second_num := Some sn |}
                | Some f2 =>
                    Completed
                      {| wavedata := list_insert_at (i st + 1) (Py.PFloat f2) one;
                         i := i st + 2;
                         first_num := Some fn; second_num := Some sn |}
                end
            end
        | _ => Caught st
        end
      else
        match Py.float token with
        | None => Caught st
        | Some data_float =>
            Completed {| wavedata := <[i st := Py.PFloat data_float]> (wavedata st);
                         i := i st + 1;
                         first_num := first_num st;
                         second_num := second_num st |}
        end
  end.

(** The bare [except:] clause.  Formatting the message reads [wavedata[i]],
    [first_num] and [second_num], in that order. *)
Definition except_clause (st : decoder) : outcome decoder :=
  if negb (Z.of_nat (i st) =? Z.of_nat (length (wavedata st)) - 1) then
    match wavedata st !! i st with
    | None => Raise Py.IndexError
    | Some data =>
        match first_num st, second_num st with
        | Some fn, Some sn => protocol_violation (Py.GlitchFix data fn sn)
        | None, _ => Raise (Py.UnboundLocalError "first_num")
        | Some _, None => Raise (Py.UnboundLocalError "second_num")
        end
    end
  else Return st.

Definition loop_body (st : decoder) : outcome decoder :=
  match try_block st with
  | Completed st' => Return st'
  | Caught st' => except_clause st'
  end.

(** [while(i < len(wavedata))], for at most [fuel] iterations. *)
Fixpoint decode_loop (fuel : nat) (st : decoder) : outcome (list Py.item) :=
  if (i st <? length (wavedata st))%nat then
    match fuel with
    | O => OutOfFuel
    | S fuel' =>
        match loop_body st with
        | Return st' => decode_loop fuel' st'
        | Raise e => Raise e
        | OutOfFuel => OutOfFuel
        end
    end
  else Return (wavedata st).

Definition start_decoder (tokens : list string) : decoder :=
  {| wavedata := map Py.PStr tokens; i := 0;
     first_num := None; second_num := None |}.

(** From [wavedata = respdata.split(",")] to the end of the loop. *)
Definition decode_samples (fuel : nat) (respdata : string)
  : outcome (list Py.item) :=
  decode_loop fuel (start_decoder (Py.split "," respdata)).

(** *** Waveform capture: the time axis and the trace *)

(** The plain path: [xdata.append(curx); curx = curx + xinc], [dpoints] times. *)
Fixpoint repeated_addition (dpoints : nat) (curx xinc : float) : list float :=
  match dpoints with
  | O => []
  | S n => curx :: repeated_addition n (PrimFloat.add curx xinc) xinc
  end.

(** [np.linspace(start, stop, num)] as NumPy computes it for scalars, with
    its default [endpoint=True]: [num - 1] steps of [(stop - start)/(num - 1)],
    and the last entry set to [stop]. *)
Definition np_linspace (start stop : float) (num : nat) : list float :=
  let div := Z.of_nat num - 1 in
  let delta := PrimFloat.sub stop start in
  let y := map (fun k => Py.float_of_int (Z.of_nat k)) (seq 0 num) in
  let y :=
    if 0 <? div then
      let step := PrimFloat.div delta (Py.float_of_int div) in
      if PrimFloat.eqb step 0%float
      then map (fun v => PrimFloat.mul (PrimFloat.div v (Py.float_of_int div)) delta) y
      else map (fun v => PrimFloat.mul v step) y
    else map (fun v => PrimFloat.mul v delta) y in
  let y := map (fun v => PrimFloat.add v start) y in
  if (1 <? num)%nat then <[(num - 1)%nat := stop]> y else y.

(** The numpy path of the source:
    [np.linspace(xorigin, xorigin + dpoints * xinc, dpoints)]. *)
Definition numpy_axis (dpoints : nat) (xorigin xinc : float) : list float :=
  np_linspace xorigin
    (PrimFloat.add xorigin
       (PrimFloat.mul (Py.float_of_int (Z.of_nat dpoints)) xinc))
    dpoints.

Definition build_x_axis (use_numpy : bool) (dpoints : nat)
    (xorigin xinc : float) : list float :=
  if use_numpy then numpy_axis dpoints xorigin xinc
  else repeated_addition dpoints xorigin xinc.

(** A trace is the dictionary the method returns: keys ['x'], ['y'] or
    ['y<ch>'], each holding a sequence. *)
Abbreviation trace := (gmap string (list Py.item)).

(** Everything [_query_waveform] does with the two replies. *)
Definition decode_trace (self : PYDHO800) (fuel : nat)
    (resppre respdata : string) : outcome trace :=
  let? pre := parse_preamble resppre in
  let? wavedata := decode_samples fuel respdata in
  let xdata :=
    build_x_axis (_use_numpy self) (length wavedata) (xorigin pre) (xinc pre) in
  Return ({[ "x" := map Py.PFloat xdata; "y" := wavedata ]} : trace).

(** [_query_waveform] for a channel number. *)
Definition _query_waveform_channel (self : PYDHO800) (fuel : nat) (channel : Z)
  : M trace :=
  if (channel <? 0) || (channel >=? _nchannels self)
  then raise (Py.ValueError (Py.ChannelOutOfRange channel))
  else
    run! (if _rawMode self then
            let! mode := _get_run_mode in
            if negb (run_mode_is_stop mode)
            then violation Py.MustStopForRaw
            else
              run! scpiCommand [Lit ":WAV:MODE RAW"] in
              scpiCommand [Lit ":WAV:POIN RAW"]
          else
            run! scpiCommand [Lit ":WAV:MODE NORM"] in
            scpiCommand [Lit ":WAV:POIN "; FInt (_samplePoints self); Lit " NORM"])
    in
    run! scpiCommand [Lit ":WAV:SOUR CHAN"; FInt (channel + 1)] in
    run! scpiCommand [Lit ":WAV:FORM ASCII"] in
    let! resppre := scpiQuery [Lit ":WAV:PRE?"] in
    let! respdata := scpiQuery [Lit ":WAV:DATA?"] in
    match resppre, respdata with
    | Some resppre, Some respdata =>
        lift (decode_trace self fuel resppre respdata)
    | _, _ => violation Py.FailedQueryTrace
    end.

(** The argument of [_query_waveform]: a channel number, or a list or tuple
    of channel numbers. *)
Inductive channel_arg : Type :=
  | Channel (ch : Z)
  | Channels (chs : list Z).

Definition key_of (ch : Z) : string := ("y" ++ pretty ch)%string.

Definition subscript (d : trace) (key : string) : outcome (list Py.item) :=
  match d !! key with
  | Some v => Return v
  | None => Raise (Py.KeyError key)
  end.

(** The [for ch in channel] loop; [resp] starts as [None]. *)
Fixpoint merge_channels (self : PYDHO800) (fuel : nat) (channel : list Z)
    (resp : option trace) : M (option trace) :=
  match channel with
  | [] => ret resp
  | ch :: rest =>
      let! resp_next := _query_waveform_channel self fuel ch in
      match resp with
      | None =>
          let! x := lift (subscript resp_next "x") in
          let! y := lift (subscript resp_next "y") in
          merge_channels self fuel rest
            (Some ({[ "x" := x; key_of ch := y ]} : trace))
      | Some d =>
          let! y := lift (subscript resp_next "y") in
          merge_channels self fuel rest (Some (<[key_of ch := y]> d))
      end
  end.

Definition _query_waveform (self : PYDHO800) (fuel : nat)
    (channel : channel_arg) : M (option trace) :=
  match channel with
  | Channels chs => merge_channels self fuel chs None
  | Channel ch =>
      let! res := _query_waveform_channel self fuel ch in ret (Some res)
  end.

(** *** Measurements *)

(** The keys of [typestr] and the members they map to. *)
Definition typestr : list (string * OscilloscopeMeasurementType) :=
  [ ("VPP", VPP); ("RRPH", RRPH); ("FFPH", FFPH); ("VMIN", VMIN);
    ("VMAX", VMAX); ("VRMS", VRMS); ("VAVG", VAVG); ("OVER", OVER);
    ("FREQ", FREQ); ("PER", PER) ].

Fixpoint typestr_get (d : list (string * OscilloscopeMeasurementType))
    (type : string) : option OscilloscopeMeasurementType :=
  match d with
  | [] => None
  | (k, v) :: rest => if String.eqb k type then Some v else typestr_get rest type
  end.

Definition is_phase (t : OscilloscopeMeasurementType) : bool :=
  match t with RRPH | FFPH => true | _ => false end.

(** What the method returns: the averaged [float] of a phase measurement, or
    the reply text of any other one. *)
Inductive measurement : Type :=
  | Averaged (resp : float)
  | Reply (resp : string).

(** [(channel < 0) or (channel > 3)] for an argument that may be [None]. *)
Definition out_of_0_3 (channel : option Z) : outcome bool :=
  match channel with
  | None => Raise (Py.TypeError "'<' not supported between instances of 'NoneType' and 'int'")
  | Some c => Return ((c <? 0) || (c >? 3))
  end.

(** The condition of the [while] loop of the phase branch. *)
Definition keep_sampling (resp1 resp2 : float) : bool :=
  PrimFloat.leb 9.9e+37%float resp1
  || PrimFloat.ltb (PrimFloat.mul (PrimFloat.abs resp2) 1.1%float) (PrimFloat.abs resp1)
  || PrimFloat.ltb (PrimFloat.abs resp1) (PrimFloat.mul (PrimFloat.abs resp2) 0.9%float).

(** [float(self._scpi.scpiQuery(text))]. *)
Definition query_float (text : fstring) : M float :=
  let! resp := scpiQuery text in
  match resp with
  | None => raise (Py.TypeError "float() argument must be a string or a real number, not 'NoneType'")
  | Some s => lift (float_stmt s)
  end.

Fixpoint sample_until_stable (fuel : nat) (text : fstring)
    (resp1 resp2 : float) : M float :=
  if keep_sampling resp1 resp2 then
    match fuel with
    | O => lift OutOfFuel
    | S fuel' =>
        let! resp1 := query_float text in
        let! resp2 := query_float text in
        sample_until_stable fuel' text resp1 resp2
    end
  else ret (PrimFloat.div (PrimFloat.add resp1 resp2) 2%float).

Definition get_channel_measurement (fuel : nat) (type : string)
    (channel refchannel : option Z) : M measurement :=
  let! bad := lift (out_of_0_3 channel) in
  if (bad : bool) then raise (Py.ValueError Py.InvalidChannelNumber)
  else
    match typestr_get typestr type with
    | None => raise (Py.ValueError (Py.UnsupportedMeasurementType type))
    | Some kind =>
        match channel with
        | None => raise (Py.ValueError Py.MissingChannelParameter)
        | Some channel =>
            if is_phase kind then
              match refchannel with
              | None => raise (Py.ValueError (Py.MissingRefchannelParameter type))
              | Some refchannel =>
                  if (refchannel <? 0) || (refchannel >? 3)
                  then raise (Py.ValueError Py.InvalidRefchannelNumber)
                  else
                    let text := [Lit ":MEAS:ITEM? "; FStr type; Lit ",CHAN";
                                 FInt (refchannel + 1); Lit ",CHAN";
                                 FInt (channel + 1)] in
                    let! resp := sample_until_stable fuel text 0%float 1%float in
                    ret (Averaged resp)
              end
            else
              let! resp := scpiQuery [Lit ":MEAS:ITEM? "; FStr type; Lit ",CHAN";
                                      FInt (channel + 1)] in
              match resp with
              | None => violation Py.FailedMeasurement
              | Some r => ret (Reply r)
              end
        end
    end.

(** *** Identification and the vertical scale read back *)

Definition _idn : M (option string) := scpiQuery [Lit "*IDN?"].

(** [idnParts[k]]. *)
Definition part (idnParts : list string) (k : nat) : outcome string :=
  match idnParts !! k with
  | Some p => Return p
  | None => Raise Py.IndexError
  end.

(** [_identify]: the first four comma-separated fields of the [*IDN?] reply
    as a dictionary, or [None] without a reply. *)
Definition _identify : M (option (gmap string string)) :=
  let! resp := _idn in
  match resp with
  | None => ret None
  | Some resp =>
      let idnParts := Py.split "," resp in
      let! manufacturer := lift (part idnParts 0) in
      let! product := lift (part idnParts 1) in
      let! serial := lift (part idnParts 2) in
      let! version := lift (part idnParts 3) in
      ret (Some ({[ "manufacturer" := manufacturer; "product" := product;
                    "serial" := serial; "version" := version ]}
                 : gmap string string))
  end.

(** The call [self._get_channel_probe_ratio(self, channel)] of
    [_get_channel_scale]: the bound method receives [self] twice, one
    positional argument more than it takes. *)
Definition _get_channel_probe_ratio_with_self (channel : Z) : M (option float) :=
  raise (Py.TypeError
           "PYDHO800._get_channel_probe_ratio() takes 2 positional arguments but 3 were given").

Definition _get_channel_scale (channel : Z) : M (option float) :=
  if (channel <? 0) || (channel >? 3)
  then raise (Py.ValueError (Py.ChannelOutOfBounds channel))
  else
    let! resp := scpiQuery (channel_text channel ":SCAL?") in
    match resp with
    | None => ret None
    | Some text =>
        match Py.float text with
        | None => ret None
        | Some resp =>
            let! scalefactor := _get_channel_probe_ratio_with_self channel in
            match scalefactor with
            | None => violation Py.FailedProbeRatioQuery
            | Some scalefactor => ret (Some (PrimFloat.mul resp scalefactor))
            end
        end
    end.

(** ** Vocabulary of the statements *)

(** [t < x] for a step [t], and [a <= b] for two steps, as floats. *)
Definition below (x : float) (t : Py.num) : bool :=
  PrimFloat.ltb (Py.as_float t) x.

Definition step_le (a b : Py.num) : Prop :=
  PrimFloat.leb (Py.as_float a) (Py.as_float b) = true.

(** The command the resolver sends for a step. *)
Definition scale_command (channel : Z) (step : Py.num) : sent :=
  Command [Lit ":CHAN"; FInt (channel + 1); Lit ":SCAL "; FNum step].

(** The acceptance test in the specification's words: neither reading at or
    above the sentinel, and the two magnitudes within ten percent. *)
Definition spec_accepts (resp1 resp2 : float) : bool :=
  negb (PrimFloat.leb 9.9e+37%float resp1)
  && negb (PrimFloat.leb 9.9e+37%float resp2)
  && negb (PrimFloat.ltb (PrimFloat.mul (PrimFloat.abs resp2) 1.1%float) (PrimFloat.abs resp1))
  && negb (PrimFloat.ltb (PrimFloat.abs resp1) (PrimFloat.mul (PrimFloat.abs resp2) 0.9%float)).

(** The query text of a phase measurement. *)
Definition phase_query (type : string) (refchannel channel : Z) : fstring :=
  [Lit ":MEAS:ITEM? "; FStr type; Lit ",CHAN"; FInt (refchannel + 1);
   Lit ",CHAN"; FInt (channel + 1)].

(** The first two commands of a capture, by acquisition mode. *)
Definition mode_commands (self : PYDHO800) : list sent :=
  if _rawMode self
  then [Command [Lit ":WAV:MODE RAW"]; Command [Lit ":WAV:POIN RAW"]]
  else [Command [Lit ":WAV:MODE NORM"];
        Command [Lit ":WAV:POIN "; FInt (_samplePoints self); Lit " NORM"]].

(** Mode, point count, source channel, format, then the two queries. *)
Definition capture_exchange (self : PYDHO800) (channel : Z) : list sent :=
  mode_commands self
  ++ [Command [Lit ":WAV:SOUR CHAN"; FInt (channel + 1)];
      Command [Lit ":WAV:FORM ASCII"];
      Query [Lit ":WAV:PRE?"];
      Query [Lit ":WAV:DATA?"]].

(** [c in s]. *)
Fixpoint occurs (c : ascii) (s : string) : bool :=
  match s with
  | EmptyString => false
  | String d r => Py.ascii_eqb d c || occurs c r
  end.

(** A token that reads directly: at most 14 characters and a float literal. *)
Definition clean (t : string) (f : float) : Prop :=
  (String.length t <= 14)%nat /\ Py.float t = Some f.

(** Two exponent-notation numbers run together: a mantissa without ['e'], the
    marker, a three-character exponent, and the second number; more than 14
    characters in all. *)
Definition glitched (g : string) (f1 f2 : float) : Prop :=
  exists a x b : string,
    g = (a ++ "e" ++ x ++ b)%string
    /\ occurs "e" a = false
    /\ String.length x = 3%nat
    /\ (14 < String.length g)%nat
    /\ Py.float (a ++ "e" ++ x)%string = Some f1
    /\ Py.float b = Some f2.

(** A token list and the samples it stands for, token by token. *)
Inductive stands_for : list string -> list float -> Prop :=
  | stands_nil : stands_for [] []
  | stands_clean t f ts fs :
      clean t f -> stands_for ts fs -> stands_for (t :: ts) (f :: fs)
  | stands_glitched g f1 f2 ts fs :
      glitched g f1 f2 -> stands_for ts fs ->
      stands_for (g :: ts) (f1 :: f2 :: fs).

(** Case analysis on the next literal that is read. *)
Ltac split_literal :=
  match goal with
  | |- context [Py.int ?s] =>
      let E := fresh "Hint" in destruct (Py.int s) eqn:E; cbv beta iota
  | |- context [Py.float ?s] =>
      let E := fresh "Hfloat" in destruct (Py.float s) eqn:E; cbv beta iota
  end.

(** [sep.join(parts)]. *)
Fixpoint join (sep : ascii) (parts : list string) : string :=
  match parts with
  | [] => EmptyString
  | [p] => p
  | p :: rest => (p ++ String sep (join sep rest))%string
  end.

(** An entry of [wavedata] that has been converted. *)
Definition is_float (x : Py.item) : Prop := exists f, x = Py.PFloat f.


(** What opens the raw-mode gate, and what the gate leaves in the log: the
    reply STOP to the run-state query in raw mode, nothing in normal mode. *)
Definition gate_replies (self : PYDHO800) : list (option string) :=
  if _rawMode self then [Some "STOP"] else [].

Definition gate_log (self : PYDHO800) : list sent :=
  if _rawMode self then [Query [Lit ":TRIG:STAT?"]] else [].

(** * Properties *)


(** ** Multi-channel capture and measurement argument checks *)

(** C9: a multi-channel capture with an empty list or tuple of channels
    returns [None], not a trace dictionary: the merge loop never runs, and
    nothing is sent to the instrument. *)
Theorem empty_channel_list_returns_None (self : PYDHO800) (fuel : nat) (l : link) :
  _query_waveform self fuel (Channels []) l = (Return None, l).
Proof. reflexivity. Qed.

Lemma query_float_raises (text : fstring) (l l' : link) (e : Py.exn) :
  query_float text l = (Raise e, l') ->
  e <> Py.ValueError Py.MissingChannelParameter.
Proof.
  unfold query_float, bind, lift, raise, float_stmt, scpiQuery.
  destruct (replies l) as [|[s|] rs]; try congruence.
  destruct (Py.float s); congruence.
Qed.

Lemma sample_until_stable_raises (fuel : nat) (text : fstring)
    (resp1 resp2 : float) (l l' : link) (e : Py.exn) :
  sample_until_stable fuel text resp1 resp2 l = (Raise e, l') ->
  e <> Py.ValueError Py.MissingChannelParameter.
Proof.
  revert resp1 resp2 l.
  induction fuel as [|fuel IH]; intros resp1 resp2 l; cbn [sample_until_stable];
    destruct (keep_sampling resp1 resp2); try (unfold lift, ret; congruence).
  unfold bind.
  destruct (query_float text l) as [[r1| |] l1] eqn:Q1; try congruence.
  - destruct (query_float text l1) as [[r2| |] l2] eqn:Q2; try congruence.
    + apply IH.
    + intros H; inversion H; subst. eapply query_float_raises, Q2.
  - intros H; inversion H; subst. eapply query_float_raises, Q1.
Qed.

(** C10: with [channel] equal to [None] the range comparison [channel < 0]
    is evaluated first and raises a type error, so no call ever reaches the
    branch that raises the 'Missing channel parameter' [ValueError]. *)
Theorem missing_channel_branch_unreachable :
  (forall fuel type refchannel l,
      get_channel_measurement fuel type None refchannel l =
      (Raise (Py.TypeError "'<' not supported between instances of 'NoneType' and 'int'"), l))
  /\ (forall fuel type channel refchannel l,
         fst (get_channel_measurement fuel type channel refchannel l) <>
         Raise (Py.ValueError Py.MissingChannelParameter)).
Proof.
  split.
  - intros fuel type refchannel l. reflexivity.
  - intros fuel type [channel|] refchannel l; [|discriminate].
    unfold get_channel_measurement, bind, lift, raise, violation, ret;
      cbn [out_of_0_3].
    destruct ((channel <? 0) || (channel >? 3)); [discriminate|].
    destruct (typestr_get typestr type) as [kind|]; [|discriminate].
    destruct (is_phase kind).
    + destruct refchannel as [r|]; [|discriminate].
      destruct ((r <? 0) || (r >? 3)); [discriminate|].
      destruct (sample_until_stable _ _ _ _ _) as [[x| |] l'] eqn:E; cbn;
        try discriminate.
      apply sample_until_stable_raises in E. congruence.
    + destruct (scpiQuery _ l) as [[[s|]| |] l'] eqn:E; cbn; try discriminate.
      unfold scpiQuery in E. destruct (replies l); discriminate.
Qed.

(** ** Scale resolution *)

(** The scan keeps its start value when no entry is below [x]; otherwise it
    ends on the last entry below [x]. *)
Lemma scan_scales_last_below (l : list Py.num) (x : float) (m : Py.num) :
  (scan_scales l x m = m /\ Forall (fun t => below x t = false) l)
  \/ (exists l1 l2, l = l1 ++ scan_scales l x m :: l2
        /\ below x (scan_scales l x m) = true
        /\ Forall (fun t => below x t = false) l2).
Proof.
  induction l as [|a l IH] using rev_ind.
  - left. split; [reflexivity | constructor].
  - unfold scan_scales in *. rewrite fold_left_app. cbn [fold_left].
    fold (below x a). destruct (below x a) eqn:Ha.
    + right. exists l, []. repeat split; [assumption | constructor].
    + destruct IH as [[Hm Hall] | (l1 & l2 & Hl & Hb & Hall)].
      * left. split; [assumption|]. apply Forall_app. split; [assumption|].
        constructor; [assumption | constructor].
      * right. exists l1, (l2 ++ [a]). repeat split.
        -- rewrite Hl at 1. rewrite <- app_assoc. reflexivity.
        -- assumption.
        -- apply Forall_app. split; [assumption|].
           constructor; [assumption | constructor].
Qed.

Lemma setableScales_ascending : StronglySorted step_le setableScales.
Proof.
  unfold setableScales.
  repeat (apply SSorted_cons;
    [| repeat (apply List.Forall_cons; [vm_compute; reflexivity|]); apply List.Forall_nil]).
  apply SSorted_nil.
Qed.

Lemma setableScales_step_le_refl : Forall (fun t => step_le t t) setableScales.
Proof.
  unfold setableScales.
  repeat (apply List.Forall_cons; [vm_compute; reflexivity|]). apply List.Forall_nil.
Qed.

Lemma setableScales_members :
  Forall (fun t => Py.num_in t setableScales = true) setableScales.
Proof.
  unfold setableScales.
  repeat (apply List.Forall_cons; [vm_compute; reflexivity|]). apply List.Forall_nil.
Qed.

(** What [match_scale_for] finds: nothing (the initial [0]) when no step is
    below [x], otherwise the largest step below [x]. *)
Lemma match_scale_for_floor (x : float) :
  (match_scale_for x = Py.NInt 0
   /\ forall t, t ∈ setableScales -> below x t = false)
  \/ (match_scale_for x ∈ setableScales
      /\ below x (match_scale_for x) = true
      /\ forall t, t ∈ setableScales -> below x t = true ->
                   step_le t (match_scale_for x)).
Proof.
  unfold match_scale_for.
  destruct (scan_scales_last_below setableScales x (Py.NInt 0))
    as [[Hm Hall] | (l1 & l2 & Hl & Hb & Hall)].
  - left. split; [assumption|]. intros t Ht.
    rewrite Forall_forall in Hall. auto.
  - right. set (r := scan_scales setableScales x (Py.NInt 0)) in *.
    assert (Hin : r ∈ setableScales).
    { rewrite Hl. apply elem_of_app. right. apply elem_of_cons. left. reflexivity. }
    split; [assumption|]. split; [assumption|].
    intros t Ht Hbelow. rewrite Hl in Ht.
    apply elem_of_app in Ht as [Ht | Ht].
    + pose proof setableScales_ascending as Hs. rewrite Hl in Hs.
      eapply (StronglySorted_app_1_elem_of _ l1 (r :: l2)); [exact Hs | exact Ht |].
      apply elem_of_cons. left. reflexivity.
    + apply elem_of_cons in Ht as [-> | Ht].
      * pose proof setableScales_step_le_refl as Hr.
        rewrite Forall_forall in Hr. auto.
      * rewrite Forall_forall in Hall. rewrite (Hall t Ht) in Hbelow. discriminate.
Qed.

Lemma channel_in_0_3 (channel : Z) :
  0 <= channel <= 3 -> (channel <? 0) || (channel >? 3) = false.
Proof. intros H. apply orb_false_iff. split; [lia|]. rewrite Z.gtb_ltb. lia. Qed.

(** Every step of the list converts, to its [Py.as_float]. *)
Lemma setableScales_convert :
  Forall (fun t => Py.float_of_num t = Some (Py.as_float t)) setableScales.
Proof.
  unfold setableScales.
  repeat (apply List.Forall_cons; [vm_compute; reflexivity|]). apply List.Forall_nil.
Qed.

(** [Py.float_overflow_bound] is where the rounding of an [int] leaves the
    finite floats: one below it still rounds to the largest finite float. *)
Lemma float_overflow_bound_is_sharp :
  Py.float_of_int (Py.float_overflow_bound - 1) = 0x1.fffffffffffffp+1023%float
  /\ Py.float_of_int Py.float_overflow_bound = infinity
  /\ Py.float_of_int (- (Py.float_overflow_bound - 1)) = (-0x1.fffffffffffffp+1023)%float
  /\ Py.float_of_int (- Py.float_overflow_bound) = neg_infinity.
Proof. repeat split; vm_compute; reflexivity. Qed.

(** C5: for a requested scale that [float] converts, once the probe ratio is
    known, the resolver divides the requested scale by it and issues the
    largest entry of [setableScales] strictly below that value, or raises the
    range [ValueError] when no entry is below it; a value equal to a step
    resolves to the step before it; with probe ratio 10 and requested scale
    0.03 the command carries 0.002. *)
Theorem scale_resolver_selects_floor_step :
  (forall (channel : Z) (scale : Py.num) (requested ratio : float)
          (l l' : link),
      0 <= channel <= 3 ->
      Py.float_of_num scale = Some requested ->
      _get_channel_probe_ratio channel l = (Return (Some ratio), l') ->
      let normalized := PrimFloat.div requested ratio in
      (exists step,
          step ∈ setableScales
          /\ below normalized step = true
          /\ (forall t, t ∈ setableScales -> below normalized t = true ->
                        step_le t step)
          /\ _set_channel_scale channel scale l =
             (Return tt, {| log := log l' ++ [scale_command channel step];
                            replies := replies l' |}))
      \/ ((forall t, t ∈ setableScales -> below normalized t = false)
          /\ _set_channel_scale channel scale l =
             (Raise (Py.ValueError Py.ScaleOutOfRange), l')))
  /\ (forall (k : nat) (step lower : Py.num),
         setableScales !! S k = Some step ->
         setableScales !! k = Some lower ->
         match_scale_for (Py.as_float step) = lower)
  /\ _set_channel_scale 0 (Py.NFloat 0.03%float)
       {| log := []; replies := [Some "10"] |} =
     (Return tt,
      {| log := [Query [Lit ":CHAN"; FInt 1; Lit ":PROB?"];
                 scale_command 0 (Py.NFloat 0.002%float)];
         replies := [] |}).
Proof.
  split; [|split].
  - intros channel scale requested ratio l l' Hch Hconv Hratio normalized.
    unfold _set_channel_scale. rewrite (channel_in_0_3 _ Hch), Hconv.
    unfold bind. rewrite Hratio. fold normalized.
    destruct (match_scale_for_floor normalized) as [[Hm Hnone] | (Hin & Hb & Hmax)].
    + right. split; [assumption|]. rewrite Hm. reflexivity.
    + left. exists (match_scale_for normalized).
      repeat split; try assumption.
      pose proof setableScales_members as Hmem. rewrite Forall_forall in Hmem.
      rewrite (Hmem _ Hin). reflexivity.
  - intros k step lower Hstep Hlower.
    do 14 (destruct k as [|k];
           [cbn in Hstep, Hlower; inversion Hstep; inversion Hlower;
            subst; vm_compute; reflexivity|]).
    cbn in Hstep. discriminate.
  - vm_compute. reflexivity.
Qed.

(** C5 at work: channel 2, requested scale 7, probe ratio 1. *)
Lemma scale_resolver_selects_floor_step_witness :
  exists step,
    step ∈ setableScales
    /\ _set_channel_scale 2 (Py.NInt 7) {| log := []; replies := [Some "1"] |} =
       (Return tt,
        {| log := [Query [Lit ":CHAN"; FInt 3; Lit ":PROB?"]] ++ [scale_command 2 step];
           replies := [] |}).
Proof.
  destruct (proj1 scale_resolver_selects_floor_step 2 (Py.NInt 7) 7%float 1%float
              {| log := []; replies := [Some "1"] |}
              {| log := [Query [Lit ":CHAN"; FInt 3; Lit ":PROB?"]]; replies := [] |}
              ltac:(lia) ltac:(vm_compute; reflexivity)
              ltac:(vm_compute; reflexivity))
    as [(step & Hin & _ & _ & Hrun) | [Hnone _]].
  - exists step. split; [exact Hin | exact Hrun].
  - exfalso.
    assert (H : Py.NInt 5 ∈ setableScales).
    { unfold setableScales. repeat (first [apply list_elem_of_here | apply list_elem_of_further]). }
    apply Hnone in H. vm_compute in H. discriminate.
Defined.

(** ** Stability-gated phase measurement *)

Lemma query_float_reply (text : fstring) (s : string) (r : float)
    (lg : list sent) (rest : list (option string)) :
  Py.float s = Some r ->
  query_float text {| log := lg; replies := Some s :: rest |} =
  (Return r, {| log := lg ++ [Query text]; replies := rest |}).
Proof.
  intros Hs. unfold query_float, bind, scpiQuery, lift, float_stmt; cbn.
  rewrite Hs. reflexivity.
Qed.

(** Against C6 as first stated: the sampler accepts a pair whose second
    reading sits on the sentinel, since only the first reading is compared
    with it. *)
Lemma second_reading_on_sentinel_accepted :
  get_channel_measurement 1 "RRPH" (Some 0) (Some 1)
    {| log := []; replies := [Some "9.0e37"; Some "9.9e37"] |} =
  (Return (Averaged (PrimFloat.div (PrimFloat.add 9.0e37%float 9.9e37%float) 2%float)),
   {| log := [Query (phase_query "RRPH" 1 0); Query (phase_query "RRPH" 1 0)];
      replies := [] |})
  /\ PrimFloat.leb 9.9e+37%float 9.9e37%float = true
  /\ spec_accepts 9.0e37%float 9.9e37%float = false.
Proof. repeat split; vm_compute; reflexivity. Qed.

(** C6 (as amended): for RRPH and FFPH the method runs the sampling loop from
    the pair (0, 1), which is never accepted; each iteration issues the query
    twice; the pair is accepted exactly when the first reading is not at or
    above 9.9e37 and its magnitude is neither above 1.1 times nor below 0.9
    times the magnitude of the second, and the average is returned; otherwise
    the loop goes round again.  (5.00, 5.02) returns 5.01; (5.00, 9.9e37) is
    rejected and the next pair is fetched. *)
Theorem phase_sampling_iteration :
  (forall (fuel : nat) (type : string) (channel refchannel : Z) (l : link),
      type = "RRPH" \/ type = "FFPH" ->
      0 <= channel <= 3 -> 0 <= refchannel <= 3 ->
      get_channel_measurement fuel type (Some channel) (Some refchannel) l =
      (let! resp := sample_until_stable fuel (phase_query type refchannel channel)
                      0%float 1%float in
       ret (Averaged resp)) l)
  /\ keep_sampling 0%float 1%float = true
  /\ (forall (fuel : nat) (text : fstring) (resp1 resp2 : float)
             (s1 s2 : string) (r1 r2 : float)
             (lg : list sent) (rest : list (option string)),
         keep_sampling resp1 resp2 = true ->
         Py.float s1 = Some r1 ->
         Py.float s2 = Some r2 ->
         let next := {| log := lg ++ [Query text; Query text]; replies := rest |} in
         sample_until_stable (S fuel) text resp1 resp2
           {| log := lg; replies := Some s1 :: Some s2 :: rest |} =
         if PrimFloat.leb 9.9e+37%float r1
            || PrimFloat.ltb (PrimFloat.mul (PrimFloat.abs r2) 1.1%float) (PrimFloat.abs r1)
            || PrimFloat.ltb (PrimFloat.abs r1) (PrimFloat.mul (PrimFloat.abs r2) 0.9%float)
         then sample_until_stable fuel text r1 r2 next
         else (Return (PrimFloat.div (PrimFloat.add r1 r2) 2%float), next))
  /\ get_channel_measurement 1 "RRPH" (Some 0) (Some 1)
       {| log := []; replies := [Some "5.00"; Some "5.02"] |} =
     (Return (Averaged 5.01%float),
      {| log := [Query (phase_query "RRPH" 1 0); Query (phase_query "RRPH" 1 0)];
         replies := [] |})
  /\ keep_sampling 5.00%float 9.9e37%float = true
  /\ get_channel_measurement 2 "RRPH" (Some 0) (Some 1)
       {| log := [];
          replies := [Some "5.00"; Some "9.9e37"; Some "5.00"; Some "5.02"] |} =
     (Return (Averaged 5.01%float),
      {| log := [Query (phase_query "RRPH" 1 0); Query (phase_query "RRPH" 1 0);
                 Query (phase_query "RRPH" 1 0); Query (phase_query "RRPH" 1 0)];
         replies := [] |}).
Proof.
  split; [|split; [|split; [|split; [|split]]]].
  - intros fuel type channel refchannel l Htype Hch Href.
    unfold get_channel_measurement, out_of_0_3.
    unfold bind at 1. unfold lift at 1.
    rewrite (channel_in_0_3 _ Hch).
    assert (Hkind : exists kind, typestr_get typestr type = Some kind
                                 /\ is_phase kind = true).
    { destruct Htype as [-> | ->]; eexists; split; reflexivity. }
    destruct Hkind as (kind & -> & ->).
    rewrite (channel_in_0_3 _ Href). reflexivity.
  - vm_compute. reflexivity.
  - intros fuel text resp1 resp2 s1 s2 r1 r2 lg rest Hkeep Hs1 Hs2 next.
    cbn [sample_until_stable]. rewrite Hkeep. unfold bind.
    rewrite (query_float_reply _ _ _ _ _ Hs1).
    rewrite (query_float_reply _ _ _ _ _ Hs2).
    rewrite <- app_assoc. cbn [app]. fold next.
    destruct fuel as [|fuel]; cbn [sample_until_stable]; unfold keep_sampling;
      destruct (_ || _ || _); reflexivity.
  - vm_compute. reflexivity.
  - vm_compute. reflexivity.
  - vm_compute. reflexivity.
Qed.

(** C6 at work: one iteration on the replies -90.5 and -91.0. *)
Lemma phase_sampling_iteration_witness :
  sample_until_stable 1 (phase_query "FFPH" 2 3) 0%float 1%float
    {| log := []; replies := [Some "-90.5"; Some "-91.0"] |} =
  (Return (PrimFloat.div (PrimFloat.add (-90.5)%float (-91.0)%float) 2%float),
   {| log := [Query (phase_query "FFPH" 2 3); Query (phase_query "FFPH" 2 3)];
      replies := [] |}).
Proof.
  exact (proj1 (proj2 (proj2 phase_sampling_iteration)) 0%nat
           (phase_query "FFPH" 2 3) 0%float 1%float "-90.5" "-91.0"
           (-90.5)%float (-91.0)%float [] []
           ltac:(vm_compute; reflexivity) ltac:(vm_compute; reflexivity)
           ltac:(vm_compute; reflexivity)).
Defined.

(** ** Capture set-up: the raw-mode gate and the order of commands *)

Lemma channel_in_range (self : PYDHO800) (channel : Z) :
  0 <= channel < _nchannels self ->
  (channel <? 0) || (channel >=? _nchannels self) = false.
Proof. intros H. apply orb_false_iff. split; [lia|]. rewrite Z.geb_leb. lia. Qed.

Lemma _get_run_mode_log (l l1 : link) (o : outcome (option OscilloscopeRunMode)) :
  _get_run_mode l = (o, l1) ->
  log l1 = log l ++ [Query [Lit ":TRIG:STAT?"]].
Proof.
  unfold _get_run_mode, bind, scpiQuery, ret.
  destruct (replies l); intros H; inversion H; reflexivity.
Qed.

Lemma bind_Return {A B} (c : M A) (k : A -> M B) (l l' : link) (a : A) :
  c l = (Return a, l') -> bind c k l = k a l'.
Proof. intros H. unfold bind. rewrite H. reflexivity. Qed.

Lemma snd_bind_ret {A B} (c : M A) (f : A -> B) (l : link) :
  snd ((let! a := c in ret (f a)) l) = snd (c l).
Proof. unfold bind, ret. destruct (c l) as [[a| |] l']; reflexivity. Qed.

(** The link after the four set-up commands and the two queries, whatever
    the replies were and however their decoding ends. *)
Lemma exchange_log (self : PYDHO800) (fuel : nat) (channel : Z) (l : link) :
  log (snd ((run! scpiCommand [Lit ":WAV:SOUR CHAN"; FInt (channel + 1)] in
             run! scpiCommand [Lit ":WAV:FORM ASCII"] in
             let! resppre := scpiQuery [Lit ":WAV:PRE?"] in
             let! respdata := scpiQuery [Lit ":WAV:DATA?"] in
             match resppre, respdata with
             | Some resppre, Some respdata =>
                 lift (decode_trace self fuel resppre respdata)
             | _, _ => violation Py.FailedQueryTrace
             end) l)) =
  log l ++ [Command [Lit ":WAV:SOUR CHAN"; FInt (channel + 1)];
            Command [Lit ":WAV:FORM ASCII"];
            Query [Lit ":WAV:PRE?"];
            Query [Lit ":WAV:DATA?"]].
Proof.
  destruct l as [lg rp].
  unfold bind, scpiCommand, scpiQuery, lift, violation, raise;
    cbn [log replies].
  destruct rp as [|[a|] [|[b|] rs]]; cbn [snd log];
    rewrite <- !app_assoc; reflexivity.
Qed.

(** With raw mode on and a run mode other than [STOP], the capture of a
    channel stops at the gate. *)
Lemma raw_gate_closed (self : PYDHO800) (fuel : nat) (channel : Z)
    (l l1 : link) (mode : option OscilloscopeRunMode) :
  0 <= channel < _nchannels self ->
  _rawMode self = true ->
  _get_run_mode l = (Return mode, l1) ->
  mode <> Some STOP ->
  _query_waveform_channel self fuel channel l =
  (Raise (Py.CommunicationError_ProtocolViolation Py.MustStopForRaw), l1).
Proof.
  intros Hch Hraw Hrun Hmode. unfold _query_waveform_channel.
  rewrite (channel_in_range _ _ Hch), Hraw.
  unfold bind at 1 2 3. rewrite Hrun.
  assert (Hstop : run_mode_is_stop mode = false).
  { destruct mode as [[]|]; [congruence|reflexivity..]. }
  rewrite Hstop. reflexivity.
Qed.

(** X22: a list of channels is captured one by one, so the gate stops it at its
    first channel, before anything is merged. *)
Lemma raw_gate_closed_for_lists (self : PYDHO800) (fuel : nat) (channel : Z)
    (rest : list Z) (l l1 : link) (mode : option OscilloscopeRunMode) :
  0 <= channel < _nchannels self ->
  _rawMode self = true ->
  _get_run_mode l = (Return mode, l1) ->
  mode <> Some STOP ->
  _query_waveform self fuel (Channels (channel :: rest)) l =
  (Raise (Py.CommunicationError_ProtocolViolation Py.MustStopForRaw), l1).
Proof.
  intros Hch Hraw Hrun Hmode. cbn [_query_waveform merge_channels].
  unfold bind at 1. rewrite (raw_gate_closed _ _ _ _ _ _ Hch Hraw Hrun Hmode).
  reflexivity.
Qed.

(** C7: for a channel of the instrument, a raw-mode capture while the run
    mode is not [STOP] raises the protocol violation with only the run-state
    query sent, no waveform command; a capture that passes the gate sends
    mode, point count, source and format, in this order, and then the
    preamble and data queries. *)
Theorem raw_gate_precedes_ordered_setup
    (self : PYDHO800) (fuel : nat) (channel : Z) (l : link) :
  0 <= channel < _nchannels self ->
  (_rawMode self = true ->
   forall mode l1,
     _get_run_mode l = (Return mode, l1) ->
     mode <> Some STOP ->
     _query_waveform self fuel (Channel channel) l =
       (Raise (Py.CommunicationError_ProtocolViolation Py.MustStopForRaw), l1)
     /\ log l1 = log l ++ [Query [Lit ":TRIG:STAT?"]])
  /\ (_rawMode self = true ->
      forall l1,
        _get_run_mode l = (Return (Some STOP), l1) ->
        log (snd (_query_waveform self fuel (Channel channel) l)) =
        log l ++ [Query [Lit ":TRIG:STAT?"]] ++ capture_exchange self channel)
  /\ (_rawMode self = false ->
      log (snd (_query_waveform self fuel (Channel channel) l)) =
      log l ++ capture_exchange self channel).
Proof.
  intros Hch.
  split; [|split];
    [|unfold _query_waveform, _query_waveform_channel;
      rewrite (channel_in_range _ _ Hch)..].
  - intros Hraw mode l1 Hrun Hmode.
    split; [|exact (_get_run_mode_log _ _ _ Hrun)].
    cbn [_query_waveform]. unfold bind at 1.
    rewrite (raw_gate_closed _ _ _ _ _ _ Hch Hraw Hrun Hmode).
    reflexivity.
  - intros Hraw l1 Hrun.
    unfold capture_exchange, mode_commands. rewrite Hraw.
    rewrite snd_bind_ret.
    erewrite bind_Return;
      [|erewrite bind_Return; [|exact Hrun]; cbn [run_mode_is_stop negb];
        reflexivity].
    rewrite exchange_log. cbn [log].
    rewrite (_get_run_mode_log _ _ _ Hrun), <- !app_assoc. reflexivity.
  - intros Hraw.
    unfold capture_exchange, mode_commands. rewrite Hraw.
    rewrite snd_bind_ret.
    erewrite bind_Return; [|reflexivity].
    rewrite exchange_log. cbn [log].
    rewrite <- !app_assoc. reflexivity.
Qed.

(** C7 at work: raw mode, channel 1, the instrument reporting RUN. *)
Lemma raw_gate_precedes_ordered_setup_witness :
  _query_waveform
    {| _rawMode := true; _samplePoints := 1000; _use_numpy := false; _nchannels := 4 |}
    8 (Channel 1) {| log := []; replies := [Some "RUN"; Some "2,0,2,1,1,0,0,1,0,0"] |} =
  (Raise (Py.CommunicationError_ProtocolViolation Py.MustStopForRaw),
   {| log := [Query [Lit ":TRIG:STAT?"]];
      replies := [Some "2,0,2,1,1,0,0,1,0,0"] |}).
Proof.
  exact (proj1
           (proj1 (raw_gate_precedes_ordered_setup
                     {| _rawMode := true; _samplePoints := 1000;
                        _use_numpy := false; _nchannels := 4 |}
                     8 1 {| log := []; replies := [Some "RUN"; Some "2,0,2,1,1,0,0,1,0,0"] |}
                     ltac:(cbn; lia))
              eq_refl (Some RUN)
              {| log := [Query [Lit ":TRIG:STAT?"]];
                 replies := [Some "2,0,2,1,1,0,0,1,0,0"] |}
              eq_refl ltac:(discriminate))).
Defined.

(** ** The time axis *)

Lemma repeated_addition_length (dpoints : nat) (curx xinc : float) :
  length (repeated_addition dpoints curx xinc) = dpoints.
Proof.
  revert curx. induction dpoints as [|n IH]; intros curx; cbn; [reflexivity|].
  rewrite IH. reflexivity.
Qed.

Lemma repeated_addition_first (dpoints : nat) (xorigin xinc : float) :
  (0 < dpoints)%nat ->
  repeated_addition dpoints xorigin xinc !! 0%nat = Some xorigin.
Proof. destruct dpoints; [lia | reflexivity]. Qed.

(** Neighbouring entries of the plain path differ by one addition of [xinc]. *)
Lemma repeated_addition_step (dpoints k : nat) (xorigin xinc a b : float) :
  repeated_addition dpoints xorigin xinc !! k = Some a ->
  repeated_addition dpoints xorigin xinc !! S k = Some b ->
  b = PrimFloat.add a xinc.
Proof.
  revert dpoints xorigin.
  induction k as [|k IH]; intros [|[|n]] x0; cbn; try discriminate.
  - intros Ha Hb. inversion Ha; inversion Hb; subst. reflexivity.
  - intros Ha Hb. exact (IH (S n) _ Ha Hb).
Qed.

Lemma np_linspace_length (start stop : float) (num : nat) :
  length (np_linspace start stop num) = num.
Proof.
  unfold np_linspace.
  assert (H : forall y : list float, length y = num ->
            length (if (1 <? num)%nat then <[(num - 1)%nat := stop]> y else y) = num).
  { intros y Hy. destruct (1 <? num)%nat; [rewrite length_insert|]; exact Hy. }
  apply H. rewrite length_map.
  destruct (0 <? Z.of_nat num - 1); [destruct (PrimFloat.eqb _ _)|];
    rewrite !length_map, length_seq; reflexivity.
Qed.

(** X19: from two samples on, the numpy path ends on [xorigin + dpoints * xinc]:
    its [dpoints - 1] steps span [dpoints] increments. *)
Lemma numpy_axis_last (dpoints : nat) (xorigin xinc : float) :
  (2 <= dpoints)%nat ->
  numpy_axis dpoints xorigin xinc !! (dpoints - 1)%nat =
  Some (PrimFloat.add xorigin
          (PrimFloat.mul (Py.float_of_int (Z.of_nat dpoints)) xinc)).
Proof.
  intros Hn. unfold numpy_axis, np_linspace.
  assert (Hlt : (1 <? dpoints)%nat = true) by (apply Nat.ltb_lt; lia).
  rewrite Hlt. apply list_lookup_insert_eq.
  rewrite length_map.
  destruct (0 <? Z.of_nat dpoints - 1); [destruct (PrimFloat.eqb _ _)|];
    rewrite !length_map, length_seq; lia.
Qed.

(** C8: with two samples, x-origin 0 and x-increment 1 the repeated-addition
    path gives the times 0, 1 and the numpy path gives 0, 2; on five samples
    the numpy path advances by 1.25 per step.  Both have one entry per sample
    and start at the x-origin, but only the first advances by the
    x-increment. *)
Theorem numpy_axis_does_not_advance_by_xinc :
  build_x_axis false 2 0%float 1%float = [0%float; 1%float]
  /\ build_x_axis true 2 0%float 1%float = [0%float; 2%float]
  /\ build_x_axis true 5 0%float 1%float =
     [0%float; 1.25%float; 2.5%float; 3.75%float; 5%float]
  /\ build_x_axis false 5 0%float 1%float =
     [0%float; 1%float; 2%float; 3%float; 4%float].
Proof. repeat split; vm_compute; reflexivity. Qed.

(** ** The preamble *)

(** X21: which preambles make the decoder raise a protocol violation: a field
    count other than ten, a first field that reads as an integer other than 2,
    or, after a first field reading 2, a second field that reads as an integer
    other than 0 and 2.  A field that does not read as a number is not among
    them. *)
Lemma parse_preamble_violation_iff (resppre : string) (why : Py.violation) :
  parse_preamble resppre = protocol_violation why <->
  (length (Py.split "," resppre) <> 10%nat /\ why = Py.UnknownPreambleFormat)
  \/ (length (Py.split "," resppre) = 10%nat
      /\ exists p0 n, Py.split "," resppre !! 0%nat = Some p0
           /\ Py.int p0 = Some n /\ n <> 2 /\ why = Py.WrongFormat p0)
  \/ (length (Py.split "," resppre) = 10%nat
      /\ exists p0 p1 t, Py.split "," resppre !! 0%nat = Some p0
           /\ Py.split "," resppre !! 1%nat = Some p1
           /\ Py.int p0 = Some 2 /\ Py.int p1 = Some t
           /\ t <> 0 /\ t <> 2 /\ why = Py.WrongDataType p1).
Proof.
  unfold parse_preamble, protocol_violation.
  destruct (Py.split "," resppre)
    as [|p0 [|p1 [|p2 [|p3 [|p4 [|p5 [|p6 [|p7 [|p8 [|p9 [|p10 rest]]]]]]]]]]];
    try (split;
         [ intros H; inversion H; left; split; [cbn; lia | reflexivity]
         | intros [[_ ->] | [[Hl _] | [Hl _]]];
           [reflexivity | cbn in Hl; lia | cbn in Hl; lia] ]).
  unfold int_stmt, float_stmt, and_then.
  destruct (Py.int p0) as [n|] eqn:H0; cbv beta iota.
  2:{ split; [discriminate|].
      intros [[Hl _] | [(_ & q0 & m & Hq & Hm & _) | (_ & q0 & q1 & t & Hq & _ & Hm & _)]];
        [cbn in Hl; lia | |]; cbn in Hq; inversion Hq; subst; congruence. }
  destruct (n =? 2) eqn:Hn; cbn [negb].
  - apply Z.eqb_eq in Hn. subst n.
    destruct (Py.int p1) as [t|] eqn:H1; cbv beta iota.
    2:{ split; [discriminate|].
        intros [[Hl _] | [(_ & q0 & m & Hq & Hm & Hne & _) | (_ & q0 & q1 & t & _ & Hq & _ & Hm & _)]];
          [cbn in Hl; lia | |]; cbn in Hq; inversion Hq; subst; congruence. }
    destruct (negb (t =? 0) && negb (t =? 2)) eqn:Ht.
    + apply andb_true_iff in Ht as [Ht0 Ht2].
      apply negb_true_iff, Z.eqb_neq in Ht0, Ht2.
      split.
      * intros H; inversion H. right. right. split; [reflexivity|].
        exists p0, p1, t. repeat split; assumption.
      * intros [[Hl _] | [(_ & q0 & m & Hq & Hm & Hne & _) | (_ & q0 & q1 & t' & _ & Hq & _ & Hm & _ & _ & ->)]].
        -- cbn in Hl; lia.
        -- cbn in Hq; inversion Hq; subst; congruence.
        -- cbn in Hq; inversion Hq; subst. reflexivity.
    + split.
      * repeat split_literal; discriminate.
      * intros [[Hl _] | [(_ & q0 & m & Hq & Hm & Hne & _) | (_ & q0 & q1 & t' & _ & Hq & _ & Hm & Ht0 & Ht2 & _)]].
        -- cbn in Hl; lia.
        -- cbn in Hq; inversion Hq; subst; congruence.
        -- cbn in Hq; inversion Hq; subst. rewrite H1 in Hm. inversion Hm; subst.
           apply Z.eqb_neq in Ht0, Ht2. rewrite Ht0, Ht2 in Ht. discriminate.
  - apply Z.eqb_neq in Hn. split.
    + intros H; inversion H. right. left. split; [reflexivity|].
      exists p0, n. repeat split; assumption.
    + intros [[Hl _] | [(_ & q0 & m & Hq & Hm & Hne & ->) | (_ & q0 & q1 & t & Hq & _ & Hm & _)]].
      * cbn in Hl; lia.
      * cbn in Hq; inversion Hq; subst. reflexivity.
      * cbn in Hq; inversion Hq; subst. congruence.
Qed.

(** The sibling reader of the x-axis values reports an unreadable number as a
    protocol violation. *)
Lemma _waveform_get_xscale_bad_number (lg : list sent) (a b c : string)
    (rest : list (option string)) :
  Py.float a = None \/ Py.float b = None \/ Py.float c = None ->
  fst (_waveform_get_xscale
         {| log := lg; replies := Some a :: Some b :: Some c :: rest |}) =
  Raise (Py.CommunicationError_ProtocolViolation Py.NoValidXScaleReply).
Proof.
  intros H. unfold _waveform_get_xscale, bind, scpiQuery, violation, raise, ret.
  cbn [replies log fst].
  destruct (Py.float a), (Py.float b), (Py.float c); try reflexivity.
  destruct H as [H | [H | H]]; discriminate.
Qed.

(** C4: the scenario preamble decodes to format 2, type 0, 1200 points,
    x-increment 1e-6 and x-origin -6e-4; a wrong field count, a format other
    than 2 and a type other than 0 and 2 raise the protocol violation; a field
    that does not read as a number raises [ValueError] instead. *)
Theorem preamble_bad_number_is_value_error :
  parse_preamble "2,0,1200,1,1e-6,-6e-4,0,1,0,0" =
    Return {| format := 2; data_type := 0; points := 1200; avgcount := 1;
              xinc := 1e-6%float; xorigin := (-6e-4)%float; xref := 0%float;
              yinc := 1%float; yorigin := 0%float; yref := 0%float |}
  /\ parse_preamble "2,0,1200,1,1e-6,-6e-4,0,1,0" =
       protocol_violation Py.UnknownPreambleFormat
  /\ parse_preamble "0,0,1200,1,1e-6,-6e-4,0,1,0,0" =
       protocol_violation (Py.WrongFormat "0")
  /\ parse_preamble "2,1,1200,1,1e-6,-6e-4,0,1,0,0" =
       protocol_violation (Py.WrongDataType "1")
  /\ parse_preamble "2,0,12x0,1,1e-6,-6e-4,0,1,0,0" =
       Raise (Py.ValueError (Py.BadLiteral "int" "12x0"))
  /\ parse_preamble "2,0,1200,1,1e-6,-6e-4,0,1,0,volts" =
       Raise (Py.ValueError (Py.BadLiteral "float" "volts"))
  /\ parse_preamble "ASC,0,1200,1,1e-6,-6e-4,0,1,0,0" =
       Raise (Py.ValueError (Py.BadLiteral "int" "ASC")).
Proof. repeat split; vm_compute; reflexivity. Qed.

(** ** The sample stream *)

Lemma split1_first (head tail : string) :
  occurs "e" head = false ->
  Py.split1 "e" (head ++ String "e" tail)%string = [head; tail].
Proof.
  induction head as [|c head IH]; intros H.
  - reflexivity.
  - cbn [occurs] in H. apply orb_false_iff in H as [Hc Hrest].
    change (String c head ++ String "e" tail)%string
      with (String c (head ++ String "e" tail)%string).
    cbn [Py.split1]. rewrite Hc, (IH Hrest). reflexivity.
Qed.

Lemma slice_to_append (x b : string) :
  Py.slice_to (String.length x) (x ++ b)%string = x.
Proof.
  induction x as [|c x IH]; [destruct b; reflexivity|].
  change (String c x ++ b)%string with (String c (x ++ b)%string).
  cbn [String.length Py.slice_to]. rewrite IH. reflexivity.
Qed.

Lemma slice_from_append (x b : string) :
  Py.slice_from (String.length x) (x ++ b)%string = b.
Proof.
  induction x as [|c x IH]; [destruct b; reflexivity|].
  change (String c x ++ b)%string with (String c (x ++ b)%string).
  cbn [String.length Py.slice_from]. exact IH.
Qed.

Lemma list_insert_at_middle {A} (l1 l2 : list A) (x : A) :
  list_insert_at (length l1) x (l1 ++ l2) = l1 ++ x :: l2.
Proof. unfold list_insert_at. rewrite take_app_length, drop_app_length. reflexivity. Qed.

(** One iteration on a token that reads directly. *)
Lemma loop_body_clean (pre tl : list Py.item) (t : string) (f : float)
    (fn sn : option string) :
  clean t f ->
  loop_body {| wavedata := pre ++ Py.PStr t :: tl; i := length pre;
               first_num := fn; second_num := sn |} =
  Return {| wavedata := pre ++ Py.PFloat f :: tl; i := length pre + 1;
            first_num := fn; second_num := sn |}.
Proof.
  intros [Hlen Hf]. unfold loop_body, try_block. cbn [wavedata i first_num second_num].
  rewrite list_lookup_middle by reflexivity.
  assert (Hshort : (14 <? String.length t)%nat = false) by (apply Nat.ltb_ge; lia).
  rewrite Hshort, Hf.
  rewrite insert_app_r_alt by lia. rewrite Nat.sub_diag. reflexivity.
Qed.

(** One iteration on a long token that splits into two numbers. *)
Lemma loop_body_repair (pre tl : list Py.item) (token head tail : string)
    (more : list string) (f1 f2 : float) (fn sn : option string) :
  (14 < String.length token)%nat ->
  Py.split1 "e" token = head :: tail :: more ->
  Py.float (head ++ "e" ++ Py.slice_to 3 tail)%string = Some f1 ->
  Py.float (Py.slice_from 3 tail) = Some f2 ->
  loop_body {| wavedata := pre ++ Py.PStr token :: tl; i := length pre;
               first_num := fn; second_num := sn |} =
  Return {| wavedata := pre ++ Py.PFloat f1 :: Py.PFloat f2 :: tl;
            i := length pre + 2;
            first_num := Some (head ++ "e" ++ Py.slice_to 3 tail)%string;
            second_num := Some (Py.slice_from 3 tail) |}.
Proof.
  intros Hlen Hsplit Hf1 Hf2. unfold loop_body, try_block.
  cbn [wavedata i first_num second_num].
  rewrite list_lookup_middle by reflexivity.
  assert (Hlong : (14 <? String.length token)%nat = true) by (apply Nat.ltb_lt; lia).
  rewrite Hlong, Hsplit, Hf1, Hf2.
  rewrite delete_middle, list_insert_at_middle.
  replace (pre ++ Py.PFloat f1 :: tl) with ((pre ++ [Py.PFloat f1]) ++ tl)
    by (rewrite <- app_assoc; reflexivity).
  replace (length pre + 1)%nat with (length (pre ++ [Py.PFloat f1]))
    by (rewrite length_app; reflexivity).
  rewrite list_insert_at_middle, <- app_assoc. reflexivity.
Qed.

Lemma glitched_splits (g : string) (f1 f2 : float) :
  glitched g f1 f2 ->
  (14 < String.length g)%nat
  /\ exists head tail,
      Py.split1 "e" g = [head; tail]
      /\ Py.float (head ++ "e" ++ Py.slice_to 3 tail)%string = Some f1
      /\ Py.float (Py.slice_from 3 tail) = Some f2.
Proof.
  intros (a & x & b & -> & Ha & Hx & Hlen & Hf1 & Hf2).
  split; [exact Hlen|]. exists a, (x ++ b)%string.
  split; [exact (split1_first a (x ++ b) Ha)|].
  rewrite <- Hx, slice_to_append, slice_from_append. split; assumption.
Qed.

Lemma decode_loop_step (fuel : nat) (st st' : decoder) :
  (i st < length (wavedata st))%nat ->
  loop_body st = Return st' ->
  decode_loop (S fuel) st = decode_loop fuel st'.
Proof.
  intros Hi Hbody. cbn [decode_loop].
  apply Nat.ltb_lt in Hi. rewrite Hi, Hbody. reflexivity.
Qed.

(** Running over a stretch of well-formed tokens takes one iteration per
    token and leaves their samples in place; what lies before and after the
    stretch is not touched. *)
Lemma decode_loop_stretch (ts : list string) (fs : list float) :
  stands_for ts fs ->
  forall (pre rest : list Py.item) (fn sn : option string) (fuel : nat),
  exists fn' sn',
    decode_loop (length ts + fuel)
      {| wavedata := pre ++ map Py.PStr ts ++ rest; i := length pre;
         first_num := fn; second_num := sn |} =
    decode_loop fuel
      {| wavedata := (pre ++ map Py.PFloat fs) ++ rest;
         i := length (pre ++ map Py.PFloat fs);
         first_num := fn'; second_num := sn' |}.
Proof.
  induction 1 as [|t f ts fs Hclean _ IH|g f1 f2 ts fs Hg _ IH];
    intros pre rest fn sn fuel.
  - exists fn, sn. cbn [map length Nat.add app]. rewrite !app_nil_r. reflexivity.
  - destruct (IH (pre ++ [Py.PFloat f]) rest fn sn fuel) as (fn' & sn' & IH').
    exists fn', sn'. cbn [map length Nat.add app].
    erewrite decode_loop_step;
      [ | cbn [wavedata i]; rewrite length_app; cbn; lia
        | exact (loop_body_clean pre _ t f fn sn Hclean) ].
    rewrite length_app in IH'. cbn [length] in IH'.
    rewrite <- !app_assoc in IH'. cbn [app] in IH'.
    rewrite <- !app_assoc. cbn [app].
    rewrite IH'. rewrite !length_app. cbn [length map]. reflexivity.
  - destruct (glitched_splits _ _ _ Hg) as (Hlen & head & tail & Hsplit & Hf1 & Hf2).
    destruct (IH (pre ++ [Py.PFloat f1; Py.PFloat f2]) rest
                 (Some (head ++ "e" ++ Py.slice_to 3 tail)%string)
                 (Some (Py.slice_from 3 tail)) fuel) as (fn' & sn' & IH').
    exists fn', sn'. cbn [map length Nat.add app].
    erewrite decode_loop_step;
      [ | cbn [wavedata i]; rewrite length_app; cbn; lia
        | exact (loop_body_repair pre _ g head tail [] f1 f2 fn sn Hlen Hsplit Hf1 Hf2) ].
    rewrite length_app in IH'. cbn [length] in IH'.
    rewrite <- !app_assoc in IH'. cbn [app] in IH'.
    rewrite <- !app_assoc. cbn [app].
    rewrite IH'. rewrite !length_app. cbn [length map]. reflexivity.
Qed.

Lemma decode_loop_finished (fuel : nat) (st : decoder) :
  (length (wavedata st) <= i st)%nat ->
  decode_loop fuel st = Return (wavedata st).
Proof.
  intros H. apply Nat.ltb_ge in H.
  destruct fuel; cbn [decode_loop]; rewrite H; reflexivity.
Qed.

Lemma stands_for_clean (ts : list string) (fs : list float) :
  Forall2 clean ts fs -> stands_for ts fs.
Proof. induction 1; [apply stands_nil | apply stands_clean; assumption]. Qed.

Lemma stands_for_app (ts1 ts2 : list string) (fs1 fs2 : list float) :
  stands_for ts1 fs1 -> stands_for ts2 fs2 ->
  stands_for (ts1 ++ ts2) (fs1 ++ fs2).
Proof.
  induction 1; intros H2; cbn [app];
    [assumption | apply stands_clean | apply stands_glitched]; auto.
Qed.

(** A well-formed token list decodes to its samples once the loop is given
    an iteration per token. *)
Lemma decode_loop_stands_for (ts : list string) (fs : list float) (fuel : nat) :
  stands_for ts fs ->
  (length ts <= fuel)%nat ->
  decode_loop fuel (start_decoder ts) = Return (map Py.PFloat fs).
Proof.
  intros Hts Hfuel.
  destruct (decode_loop_stretch ts fs Hts [] [] None None (fuel - length ts))
    as (fn & sn & Hrun).
  replace (length ts + (fuel - length ts))%nat with fuel in Hrun by lia.
  cbn [app length] in Hrun. rewrite app_nil_r in Hrun.
  unfold start_decoder. rewrite Hrun.
  rewrite decode_loop_finished; cbn [wavedata i]; [|rewrite app_nil_r; lia].
  rewrite app_nil_r. reflexivity.
Qed.

(** Fuel beyond what the loop needs changes nothing. *)
Lemma decode_loop_more_fuel (fuel k : nat) (st : decoder) :
  decode_loop fuel st <> OutOfFuel ->
  decode_loop (fuel + k) st = decode_loop fuel st.
Proof.
  revert st. induction fuel as [|fuel IH]; intros st H.
  - cbn [decode_loop Nat.add] in *.
    destruct (i st <? length (wavedata st))%nat eqn:Hi; [congruence|].
    apply decode_loop_finished, Nat.ltb_ge, Hi.
  - cbn [decode_loop Nat.add] in *.
    destruct (i st <? length (wavedata st))%nat; [|reflexivity].
    destruct (loop_body st) as [st'| |]; [apply IH; assumption|reflexivity..].
Qed.

(** C1: an iteration that meets a token of more than 14 characters cuts it at
    its first ['e'], reads the text up to and including the three characters
    after the marker as one float and the rest as another, and puts both in
    the token's place, moving on by two; the scenario stream decodes to five
    samples, the glitched token giving the second and third. *)
Theorem long_token_is_split_in_two :
  (forall (st : decoder) (token head tail : string) (f1 f2 : float),
      wavedata st !! i st = Some (Py.PStr token) ->
      (14 < String.length token)%nat ->
      token = (head ++ String "e" tail)%string ->
      occurs "e" head = false ->
      Py.float (head ++ "e" ++ Py.slice_to 3 tail)%string = Some f1 ->
      Py.float (Py.slice_from 3 tail) = Some f2 ->
      loop_body st =
      Return {| wavedata := take (i st) (wavedata st)
                            ++ Py.PFloat f1 :: Py.PFloat f2
                            :: drop (S (i st)) (wavedata st);
                i := i st + 2;
                first_num := Some (head ++ "e" ++ Py.slice_to 3 tail)%string;
                second_num := Some (Py.slice_from 3 tail) |})
  /\ (forall fuel : nat,
         (4 <= fuel)%nat ->
         decode_samples fuel "1.0,2.0,1.234567890123e-051.987654321098e-04,3.0" =
         Return [Py.PFloat 1.0%float; Py.PFloat 2.0%float;
                 Py.PFloat 1.234567890123e-05%float;
                 Py.PFloat 1.987654321098e-04%float;
                 Py.PFloat 3.0%float]).
Proof.
  split.
  - intros [wd k fn sn] token head tail f1 f2 Hlook Hlen -> Hhead Hf1 Hf2.
    cbn [wavedata i] in *.
    pose proof (lookup_lt_Some _ _ _ Hlook) as Hk.
    pose proof (take_drop_middle _ _ _ Hlook) as Hwd.
    assert (Hpre : length (take k wd) = k) by (apply length_take_le; lia).
    pose proof (loop_body_repair (take k wd) (drop (S k) wd) _ head tail []
                  f1 f2 fn sn Hlen (split1_first head tail Hhead) Hf1 Hf2)
      as Hbody.
    rewrite Hwd, Hpre in Hbody. exact Hbody.
  - intros fuel Hfuel.
    replace fuel with (4 + (fuel - 4))%nat by lia. unfold decode_samples.
    rewrite decode_loop_more_fuel; [vm_compute; reflexivity|].
    vm_compute. discriminate.
Qed.

(** C1 at work: the scenario's glitched token at the head of a stream. *)
Lemma long_token_is_split_in_two_witness :
  loop_body (start_decoder ["1.234567890123e-051.987654321098e-04"; "3.0"]) =
  Return {| wavedata := [Py.PFloat 1.234567890123e-05%float;
                         Py.PFloat 1.987654321098e-04%float; Py.PStr "3.0"];
            i := 2;
            first_num := Some "1.234567890123e-05";
            second_num := Some "1.987654321098e-04" |}.
Proof.
  exact (proj1 long_token_is_split_in_two
           (start_decoder ["1.234567890123e-051.987654321098e-04"; "3.0"])
           "1.234567890123e-051.987654321098e-04"
           "1.234567890123" "-051.987654321098e-04"
           1.234567890123e-05%float 1.987654321098e-04%float
           eq_refl ltac:(cbn; lia) eq_refl eq_refl
           ltac:(vm_compute; reflexivity) ltac:(vm_compute; reflexivity)).
Defined.

(** C3: a token list whose tokens all read directly, none longer than 14
    characters, decodes to exactly one sample per token; with one glitched
    token among such tokens it decodes to one sample more, the glitched token
    giving two neighbouring samples and every other token its own. *)
Theorem decoding_preserves_length_up_to_one_repair :
  (forall (tokens : list string) (samples : list float) (fuel : nat),
      Forall2 clean tokens samples ->
      (length tokens <= fuel)%nat ->
      decode_loop fuel (start_decoder tokens) = Return (map Py.PFloat samples)
      /\ length samples = length tokens)
  /\ (forall (before after : list string) (g : string)
             (fb fa : list float) (f1 f2 : float) (fuel : nat),
         Forall2 clean before fb ->
         glitched g f1 f2 ->
         Forall2 clean after fa ->
         (length (before ++ g :: after) <= fuel)%nat ->
         decode_loop fuel (start_decoder (before ++ g :: after)) =
           Return (map Py.PFloat (fb ++ f1 :: f2 :: fa))
         /\ length (fb ++ f1 :: f2 :: fa) = S (length (before ++ g :: after))).
Proof.
  split.
  - intros tokens samples fuel Hall Hfuel. split.
    + apply decode_loop_stands_for; [apply stands_for_clean|]; assumption.
    + symmetry. exact (Forall2_length _ _ _ Hall).
  - intros before after g fb fa f1 f2 fuel Hb Hg Ha Hfuel. split.
    + apply decode_loop_stands_for; [|assumption].
      apply stands_for_app; [apply stands_for_clean; assumption|].
      apply stands_glitched; [assumption|]. apply stands_for_clean; assumption.
    + rewrite !length_app. cbn [length].
      rewrite (Forall2_length _ _ _ Hb), (Forall2_length _ _ _ Ha). lia.
Qed.

(** C3 at work: the scenario's four tokens give five samples. *)
Lemma decoding_preserves_length_up_to_one_repair_witness :
  decode_loop 4
    (start_decoder (["1.0"; "2.0"]
                    ++ "1.234567890123e-051.987654321098e-04" :: ["3.0"])) =
    Return (map Py.PFloat
              ([1.0%float; 2.0%float]
               ++ 1.234567890123e-05%float :: 1.987654321098e-04%float
               :: [3.0%float]))
  /\ length ([1.0%float; 2.0%float]
             ++ 1.234567890123e-05%float :: 1.987654321098e-04%float
             :: [3.0%float]) =
     S (length (["1.0"; "2.0"]
                ++ "1.234567890123e-051.987654321098e-04" :: ["3.0"])).
Proof.
  apply (proj2 decoding_preserves_length_up_to_one_repair).
  - repeat (apply List.Forall2_cons;
            [split; [cbn; lia | vm_compute; reflexivity]|]).
    apply List.Forall2_nil.
  - exists "1.234567890123", "-05", "1.987654321098e-04".
    repeat split; try reflexivity; try (cbn; lia); vm_compute; reflexivity.
  - repeat (apply List.Forall2_cons;
            [split; [cbn; lia | vm_compute; reflexivity]|]).
    apply List.Forall2_nil.
  - cbn. lia.
Defined.

(** An iteration that fails on the last token leaves every variable as it
    was: the handler does not raise, and nothing moves [i] on or removes the
    token. *)
Lemma loop_body_stalls_on_last (pre : list Py.item) (t : string)
    (fn sn : option string) :
  (String.length t <= 14)%nat ->
  Py.float t = None ->
  let st := {| wavedata := pre ++ [Py.PStr t]; i := length pre;
               first_num := fn; second_num := sn |} in
  loop_body st = Return st.
Proof.
  intros Hlen Hf st. unfold loop_body, try_block, st.
  cbn [wavedata i first_num second_num].
  rewrite list_lookup_middle by reflexivity.
  assert (Hshort : (14 <? String.length t)%nat = false) by (apply Nat.ltb_ge; lia).
  rewrite Hshort, Hf. unfold except_clause. cbn [wavedata i].
  assert (Hlast : (Z.of_nat (length pre) =? Z.of_nat (length (pre ++ [Py.PStr t])) - 1) = true).
  { apply Z.eqb_eq. rewrite length_app. cbn [length]. lia. }
  rewrite Hlast. reflexivity.
Qed.

Lemma decode_loop_stalled (st : decoder) :
  (i st < length (wavedata st))%nat ->
  loop_body st = Return st ->
  forall fuel, decode_loop fuel st = OutOfFuel.
Proof.
  intros Hi Hbody fuel. apply Nat.ltb_lt in Hi.
  induction fuel as [|fuel IH]; cbn [decode_loop]; rewrite Hi; [reflexivity|].
  rewrite Hbody. exact IH.
Qed.

(** C2: what the code does with a token that does not parse.  After tokens
    that decode, a last token of at most 14 characters that is no float
    literal is neither dropped nor reported: the loop has no result for any
    number of iterations.  On a token that is not the last, the handler fails
    with [UnboundLocalError] while formatting its message when no repair has
    bound [first_num] yet, and a long unreadable token in the last but one
    place is dropped without any error. *)
Theorem unreadable_last_token_stalls_the_loop :
  (forall (before : list string) (fb : list float) (t : string) (fuel : nat),
      stands_for before fb ->
      (String.length t <= 14)%nat ->
      Py.float t = None ->
      decode_loop fuel (start_decoder (before ++ [t])) = OutOfFuel)
  /\ (forall fuel : nat, decode_samples fuel "1.0,2.0,abc" = OutOfFuel)
  /\ decode_samples 3 "1.0,abc,2.0" =
     Raise (Py.UnboundLocalError "first_num")
  /\ decode_samples 3 "1.0,xxxxxxxxxxxxxxxexxxxx,2.0" =
     Return [Py.PFloat 1.0%float; Py.PFloat 2.0%float].
Proof.
  assert (Hstalls :
    forall (before : list string) (fb : list float) (t : string) (fuel : nat),
      stands_for before fb ->
      (String.length t <= 14)%nat ->
      Py.float t = None ->
      decode_loop fuel (start_decoder (before ++ [t])) = OutOfFuel);
    [|split; [exact Hstalls|split; [|split; vm_compute; reflexivity]]].
  2:{ intros fuel.
      refine (Hstalls ["1.0"; "2.0"] [1.0%float; 2.0%float] "abc" fuel _ _ _).
      - repeat (apply stands_clean; [split; [cbn; lia | vm_compute; reflexivity]|]).
        apply stands_nil.
      - cbn. lia.
      - vm_compute. reflexivity. }
  intros before fb t fuel Hbefore Hlen Hf.
  destruct (decode_loop_stretch before fb Hbefore [] [Py.PStr t] None None fuel)
    as (fn & sn & Hrun).
  assert (Hstall : decode_loop fuel
                     {| wavedata := ([] ++ map Py.PFloat fb) ++ [Py.PStr t];
                        i := length ([] ++ map Py.PFloat fb);
                        first_num := fn; second_num := sn |} = OutOfFuel).
  { apply decode_loop_stalled.
    - cbn [wavedata i]. rewrite !length_app. cbn [length]. lia.
    - exact (loop_body_stalls_on_last _ t fn sn Hlen Hf). }
  rewrite Hstall in Hrun. cbn [app length] in Hrun.
  assert (Hstart : start_decoder (before ++ [t]) =
                   {| wavedata := map Py.PStr before ++ [Py.PStr t]; i := 0;
                      first_num := None; second_num := None |}).
  { unfold start_decoder. rewrite map_app. reflexivity. }
  rewrite <- Hstart in Hrun.
  destruct (decode_loop fuel (start_decoder (before ++ [t]))) as [v|e|] eqn:Hres;
    [| |reflexivity].
  - assert (Hne : decode_loop fuel (start_decoder (before ++ [t])) <> OutOfFuel)
      by congruence.
    apply (decode_loop_more_fuel _ (length before)) in Hne.
    rewrite (Nat.add_comm fuel), Hrun, Hres in Hne. discriminate.
  - assert (Hne : decode_loop fuel (start_decoder (before ++ [t])) <> OutOfFuel)
      by congruence.
    apply (decode_loop_more_fuel _ (length before)) in Hne.
    rewrite (Nat.add_comm fuel), Hrun, Hres in Hne. discriminate.
Qed.

(** C2 at work: after two good tokens, [abc] keeps the loop busy. *)
Lemma unreadable_last_token_stalls_the_loop_witness :
  decode_loop 64 (start_decoder (["1.0"; "2.0"] ++ ["abc"])) = OutOfFuel.
Proof.
  refine (proj1 unreadable_last_token_stalls_the_loop
            ["1.0"; "2.0"] [1.0%float; 2.0%float] "abc" 64%nat _ _ _).
  - repeat (apply stands_clean; [split; [cbn; lia | vm_compute; reflexivity]|]).
    apply stands_nil.
  - cbn. lia.
  - vm_compute. reflexivity.
Defined.

(** A whole capture of channel 0 in normal mode on the scenario's replies:
    five samples, timed from the x-origin in steps of the x-increment. *)
Lemma capture_of_scenario_stream :
  exists d : trace,
    fst (_query_waveform
           {| _rawMode := false; _samplePoints := 1000; _use_numpy := false;
              _nchannels := 4 |}
           4 (Channel 0)
           {| log := [];
              replies := [Some "2,0,1200,1,1e-6,-6e-4,0,1,0,0";
                          Some "1.0,2.0,1.234567890123e-051.987654321098e-04,3.0"] |})
    = Return (Some d)
    /\ d !! "y" = Some [Py.PFloat 1.0%float; Py.PFloat 2.0%float;
                        Py.PFloat 1.234567890123e-05%float;
                        Py.PFloat 1.987654321098e-04%float;
                        Py.PFloat 3.0%float]
    /\ d !! "x" = Some (map Py.PFloat
                          (repeated_addition 5 (-6e-4)%float 1e-6%float)).
Proof.
  eexists. split; [vm_compute; reflexivity|].
  split; vm_compute; reflexivity.
Qed.

(** * Further properties of the driver *)

(** ** Splitting what was joined *)

Lemma split_without_sep (sep : ascii) (p : string) :
  occurs sep p = false -> Py.split sep p = [p].
Proof.
  induction p as [|c p IH]; intros H; [reflexivity|].
  cbn [occurs] in H. apply orb_false_iff in H as [Hc Hp].
  cbn [Py.split]. rewrite Hc, (IH Hp). reflexivity.
Qed.

Lemma split_at_first_sep (sep : ascii) (p r : string) :
  occurs sep p = false ->
  Py.split sep (p ++ String sep r)%string = p :: Py.split sep r.
Proof.
  induction p as [|c p IH]; intros H.
  - change (EmptyString ++ String sep r)%string with (String sep r).
    cbn [Py.split]. unfold Py.ascii_eqb. rewrite Ascii.eqb_refl. reflexivity.
  - cbn [occurs] in H. apply orb_false_iff in H as [Hc Hp].
    change (String c p ++ String sep r)%string
      with (String c (p ++ String sep r)%string).
    cbn [Py.split]. rewrite Hc, (IH Hp). reflexivity.
Qed.

Lemma split_join (sep : ascii) (parts : list string) :
  parts <> [] ->
  Forall (fun p => occurs sep p = false) parts ->
  Py.split sep (join sep parts) = parts.
Proof.
  induction parts as [|p [|q rest] IH]; intros Hne Hall; [congruence| |].
  - cbn [join]. apply split_without_sep.
    inversion Hall; assumption.
  - inversion Hall as [|? ? Hp Hrest]; subst.
    change (join sep (p :: q :: rest))
      with (p ++ String sep (join sep (q :: rest)))%string.
    rewrite (split_at_first_sep _ _ _ Hp), IH; [reflexivity|discriminate|assumption].
Qed.

(** ** The preamble, read back *)

(** X5: the preamble decoder returns a preamble exactly when the reply has
    ten comma-separated fields, the first reading as the integer 2, the second
    as 0 or 2, the next two as integers and the last six as floats; the
    record holds these readings, so a returned preamble always has format 2
    and type 0 or 2. *)
Theorem parse_preamble_success_iff (resppre : string) (p : preamble) :
  parse_preamble resppre = Return p <->
  exists p0 p1 p2 p3 p4 p5 p6 p7 p8 p9 : string,
    Py.split "," resppre = [p0; p1; p2; p3; p4; p5; p6; p7; p8; p9]
    /\ Py.int p0 = Some (format p) /\ format p = 2
    /\ Py.int p1 = Some (data_type p) /\ (data_type p = 0 \/ data_type p = 2)
    /\ Py.int p2 = Some (points p) /\ Py.int p3 = Some (avgcount p)
    /\ Py.float p4 = Some (xinc p) /\ Py.float p5 = Some (xorigin p)
    /\ Py.float p6 = Some (xref p) /\ Py.float p7 = Some (yinc p)
    /\ Py.float p8 = Some (yorigin p) /\ Py.float p9 = Some (yref p).
Proof.
  unfold parse_preamble, protocol_violation.
  split.
  - destruct (Py.split "," resppre)
      as [|p0 [|p1 [|p2 [|p3 [|p4 [|p5 [|p6 [|p7 [|p8 [|p9 [|p10 rest]]]]]]]]]]];
      try discriminate.
    unfold int_stmt, float_stmt, and_then.
    destruct (Py.int p0) as [n|] eqn:H0; cbv beta iota; [|discriminate].
    destruct (n =? 2) eqn:Hn; cbn [negb]; [|discriminate].
    apply Z.eqb_eq in Hn. subst n.
    destruct (Py.int p1) as [t|] eqn:H1; cbv beta iota; [|discriminate].
    destruct (negb (t =? 0) && negb (t =? 2)) eqn:Ht; [discriminate|].
    repeat split_literal; try discriminate.
    intros H. inversion H; subst p; clear H. cbn.
    exists p0, p1, p2, p3, p4, p5, p6, p7, p8, p9.
    repeat split; try reflexivity; try assumption.
    apply andb_false_iff in Ht as [Ht | Ht];
      apply negb_false_iff, Z.eqb_eq in Ht; auto.
  - intros (p0 & p1 & p2 & p3 & p4 & p5 & p6 & p7 & p8 & p9 & -> & H0 & Hf
            & H1 & Ht & H2 & H3 & H4 & H5 & H6 & H7 & H8 & H9).
    unfold int_stmt, float_stmt, and_then.
    rewrite H0, Hf. cbn [Z.eqb Pos.eqb negb].
    rewrite H1.
    assert (Hok : negb (data_type p =? 0) && negb (data_type p =? 2) = false).
    { destruct Ht as [-> | ->]; reflexivity. }
    rewrite Hok, H2, H3, H4, H5, H6, H7, H8, H9.
    destruct p; cbn in *; subst; reflexivity.
Qed.

(** X4: ten comma-free fields that read as the preamble's numbers, joined by
    commas, decode to the preamble holding these numbers. *)
Theorem parse_preamble_of_joined_fields
    (p0 p1 p2 p3 p4 p5 p6 p7 p8 p9 : string) (p : preamble) :
  Forall (fun f => occurs "," f = false) [p0; p1; p2; p3; p4; p5; p6; p7; p8; p9] ->
  format p = 2 -> data_type p = 0 \/ data_type p = 2 ->
  Py.int p0 = Some (format p) -> Py.int p1 = Some (data_type p) ->
  Py.int p2 = Some (points p) -> Py.int p3 = Some (avgcount p) ->
  Py.float p4 = Some (xinc p) -> Py.float p5 = Some (xorigin p) ->
  Py.float p6 = Some (xref p) -> Py.float p7 = Some (yinc p) ->
  Py.float p8 = Some (yorigin p) -> Py.float p9 = Some (yref p) ->
  parse_preamble (join "," [p0; p1; p2; p3; p4; p5; p6; p7; p8; p9]) = Return p.
Proof.
  intros Hcomma Hf Ht H0 H1 H2 H3 H4 H5 H6 H7 H8 H9.
  unfold parse_preamble. rewrite split_join; [|discriminate|exact Hcomma].
  unfold int_stmt, float_stmt, and_then.
  rewrite H0, Hf. cbn [Z.eqb Pos.eqb negb].
  rewrite H1.
  assert (Hok : negb (data_type p =? 0) && negb (data_type p =? 2) = false).
  { destruct Ht as [-> | ->]; reflexivity. }
  rewrite Hok, H2, H3, H4, H5, H6, H7, H8, H9.
  destruct p; cbn in *; subst; reflexivity.
Qed.

(** X4 at work: a raw-mode preamble of 25 points. *)
Lemma parse_preamble_of_joined_fields_witness :
  parse_preamble
    (join "," ["2"; "2"; "25"; "1"; "2e-9"; "-1.5e-3"; "0"; "4e-2"; "0"; "127"]) =
  Return {| format := 2; data_type := 2; points := 25; avgcount := 1;
            xinc := 2e-9%float; xorigin := (-1.5e-3)%float; xref := 0%float;
            yinc := 4e-2%float; yorigin := 0%float; yref := 127%float |}.
Proof.
  apply parse_preamble_of_joined_fields; cbn [format data_type points avgcount
    xinc xorigin xref yinc yorigin yref];
    try (vm_compute; reflexivity); try (right; reflexivity).
  repeat (apply List.Forall_cons; [reflexivity|]). apply List.Forall_nil.
Defined.

(** ** The sample stream: what the loop leaves and what escapes it *)

(** An iteration that does not raise leaves the entries before [i] alone,
    moves [i] only over entries it has converted, and converts nothing
    behind. *)
Lemma loop_body_extends_prefix (pre tl : list Py.item) (x : Py.item)
    (fn sn : option string) (st' : decoder) :
  loop_body {| wavedata := pre ++ x :: tl; i := length pre;
               first_num := fn; second_num := sn |} = Return st' ->
  exists new rest,
    wavedata st' = (pre ++ new) ++ rest
    /\ i st' = length (pre ++ new)
    /\ Forall is_float new.
Proof.
  unfold loop_body, try_block. cbn [wavedata i first_num second_num].
  rewrite list_lookup_middle by reflexivity.
  assert (Hsame : forall st, except_clause st = Return st' -> st' = st).
  { intros st. unfold except_clause.
    destruct (negb _); [|congruence].
    destruct (wavedata st !! i st); [|discriminate].
    destruct (first_num st), (second_num st); discriminate. }
  destruct x as [token|f].
  - destruct (14 <? String.length token)%nat.
    + destruct (Py.split1 "e" token) as [|head [|tail more]].
      * intros H. apply Hsame in H. subst st'.
        exists [], (Py.PStr token :: tl). cbn [wavedata i].
        rewrite !app_nil_r. repeat split. constructor.
      * intros H. apply Hsame in H. subst st'.
        exists [], (Py.PStr token :: tl). cbn [wavedata i].
        rewrite !app_nil_r. repeat split. constructor.
      * rewrite delete_middle.
        destruct (Py.float (head ++ "e" ++ Py.slice_to 3 tail)%string) as [f1|].
        -- rewrite list_insert_at_middle.
           destruct (Py.float (Py.slice_from 3 tail)) as [f2|].
           ++ intros H. inversion H; subst st'; clear H.
              exists [Py.PFloat f1; Py.PFloat f2], tl. cbn [wavedata i].
              repeat split.
              ** replace (pre ++ Py.PFloat f1 :: tl)
                   with ((pre ++ [Py.PFloat f1]) ++ tl)
                   by (rewrite <- app_assoc; reflexivity).
                 replace (length pre + 1)%nat with (length (pre ++ [Py.PFloat f1]))
                   by (rewrite length_app; reflexivity).
                 rewrite list_insert_at_middle, <- !app_assoc. reflexivity.
              ** rewrite length_app. reflexivity.
              ** repeat constructor; eexists; reflexivity.
           ++ intros H. apply Hsame in H. subst st'.
              exists [], (Py.PFloat f1 :: tl). cbn [wavedata i].
              rewrite !app_nil_r. repeat split. constructor.
        -- intros H. apply Hsame in H. subst st'.
           exists [], tl. cbn [wavedata i].
           rewrite !app_nil_r. repeat split. constructor.
    + destruct (Py.float token) as [f|].
      * intros H. inversion H; subst st'; clear H.
        exists [Py.PFloat f], tl. cbn [wavedata i]. repeat split.
        -- rewrite insert_app_r_alt by lia. rewrite Nat.sub_diag, <- app_assoc.
           reflexivity.
        -- rewrite length_app. reflexivity.
        -- repeat constructor. eexists; reflexivity.
      * intros H. apply Hsame in H. subst st'.
        exists [], (Py.PStr token :: tl). cbn [wavedata i].
        rewrite !app_nil_r. repeat split. constructor.
  - intros H. apply Hsame in H. subst st'.
    exists [], (Py.PFloat f :: tl). cbn [wavedata i].
    rewrite !app_nil_r. repeat split. constructor.
Qed.

Lemma decode_loop_converts_all (fuel : nat) :
  forall (pre rest : list Py.item) (fn sn : option string) (wd : list Py.item),
    Forall is_float pre ->
    decode_loop fuel {| wavedata := pre ++ rest; i := length pre;
                        first_num := fn; second_num := sn |} = Return wd ->
    Forall is_float wd.
Proof.
  induction fuel as [|fuel IH]; intros pre rest fn sn wd Hpre;
    cbn [decode_loop wavedata i]; rewrite length_app.
  - destruct rest as [|x tl].
    + rewrite app_nil_r. cbn [length]. rewrite Nat.add_0_r, Nat.ltb_irrefl.
      intros H; inversion H; subst; assumption.
    + assert (Hlt : (length pre <? length pre + length (x :: tl))%nat = true)
        by (apply Nat.ltb_lt; cbn [length]; lia).
      rewrite Hlt. discriminate.
  - destruct rest as [|x tl].
    + rewrite app_nil_r. cbn [length]. rewrite Nat.add_0_r, Nat.ltb_irrefl.
      intros H; inversion H; subst; assumption.
    + assert (Hlt : (length pre <? length pre + length (x :: tl))%nat = true)
        by (apply Nat.ltb_lt; cbn [length]; lia).
      rewrite Hlt.
      destruct (loop_body _) as [st'| |] eqn:Hbody; try discriminate.
      destruct (loop_body_extends_prefix _ _ _ _ _ _ Hbody)
        as (new & rest' & Hwd & Hi & Hnew).
      destruct st' as [wd' i' fn' sn']. cbn [wavedata i] in Hwd, Hi. subst wd' i'.
      apply IH. apply Forall_app. split; assumption.
Qed.

Lemma decoded_samples_are_floats_aux (fuel : nat) (respdata : string)
    (wd : list Py.item) :
  decode_samples fuel respdata = Return wd ->
  forall x, x ∈ wd -> is_float x.
Proof.
  intros Hrun x Hx. unfold decode_samples, start_decoder in Hrun.
  pose proof (decode_loop_converts_all fuel [] _ None None wd
                (List.Forall_nil _) Hrun) as Hall.
  rewrite Forall_forall in Hall. exact (Hall x Hx).
Qed.

(** X1: whenever the decoding of a data reply returns, every entry of the
    result is a float: no unconverted token is ever handed on. *)
Theorem decoded_samples_are_floats (fuel : nat) (respdata : string)
    (wd : list Py.item) :
  decode_samples fuel respdata = Return wd ->
  forall x, x ∈ wd -> exists f, x = Py.PFloat f.
Proof.
  intros Hrun x Hx.
  exact (decoded_samples_are_floats_aux fuel respdata wd Hrun x Hx).
Qed.

(** X1 at work: the stream whose long unreadable token is dropped. *)
Lemma decoded_samples_are_floats_witness :
  exists f, Py.PFloat 2.0%float = Py.PFloat f.
Proof.
  exact (decoded_samples_are_floats 3 "1.0,xxxxxxxxxxxxxxxexxxxx,2.0"
           [Py.PFloat 1.0%float; Py.PFloat 2.0%float]
           ltac:(vm_compute; reflexivity)
           (Py.PFloat 2.0%float)
           ltac:(apply list_elem_of_further, list_elem_of_here)).
Defined.

(** X2: the bare [except] swallows whatever [float] and [len] raise; what can
    leave the loop is an [IndexError] or [UnboundLocalError] from formatting
    the message, or the protocol violation with its three message pieces;
    never the [ValueError] or [TypeError] of the failed conversion. *)
Theorem decode_loop_escapes (fuel : nat) (st : decoder) (e : Py.exn) :
  decode_loop fuel st = Raise e ->
  e = Py.IndexError
  \/ e = Py.UnboundLocalError "first_num"
  \/ e = Py.UnboundLocalError "second_num"
  \/ exists data fn sn,
       e = Py.CommunicationError_ProtocolViolation (Py.GlitchFix data fn sn).
Proof.
  revert st. induction fuel as [|fuel IH]; intros st; cbn [decode_loop];
    destruct (i st <? length (wavedata st))%nat; try discriminate.
  destruct (loop_body st) as [st'| |] eqn:Hbody; try discriminate; [apply IH|].
  intros H; inversion H; subst; clear H.
  assert (Hexc : forall s, except_clause s = Raise e ->
            e = Py.IndexError
            \/ e = Py.UnboundLocalError "first_num"
            \/ e = Py.UnboundLocalError "second_num"
            \/ exists data fn sn,
                 e = Py.CommunicationError_ProtocolViolation (Py.GlitchFix data fn sn)).
  { intros s. unfold except_clause, protocol_violation.
    destruct (negb _); [|discriminate].
    destruct (wavedata s !! i s) as [data|]; [|intros H; inversion H; auto].
    destruct (first_num s) as [a|], (second_num s) as [b|];
      intros H; inversion H; eauto 10. }
  unfold loop_body in Hbody.
  destruct (try_block st) as [s|s]; [discriminate | exact (Hexc s Hbody)].
Qed.

(** X2 at work: an unreadable token after a repair. *)
Lemma decode_loop_escapes_witness :
  Py.CommunicationError_ProtocolViolation
    (Py.GlitchFix (Py.PStr "abc") "1.234567890123e-05" "1.987654321098e-04")
  = Py.IndexError
  \/ Py.CommunicationError_ProtocolViolation
       (Py.GlitchFix (Py.PStr "abc") "1.234567890123e-05" "1.987654321098e-04")
     = Py.UnboundLocalError "first_num"
  \/ Py.CommunicationError_ProtocolViolation
       (Py.GlitchFix (Py.PStr "abc") "1.234567890123e-05" "1.987654321098e-04")
     = Py.UnboundLocalError "second_num"
  \/ exists data fn sn,
       Py.CommunicationError_ProtocolViolation
         (Py.GlitchFix (Py.PStr "abc") "1.234567890123e-05" "1.987654321098e-04")
       = Py.CommunicationError_ProtocolViolation (Py.GlitchFix data fn sn).
Proof.
  exact (decode_loop_escapes 3
           (start_decoder ["1.234567890123e-051.987654321098e-04"; "abc"; "3.0"])
           _ ltac:(vm_compute; reflexivity)).
Defined.

(** X3: a data reply made of well-formed tokens joined by commas decodes to
    the samples the tokens stand for, one iteration per token. *)
Theorem decode_samples_of_joined_tokens
    (tokens : list string) (fs : list float) (fuel : nat) :
  tokens <> [] ->
  Forall (fun t => occurs "," t = false) tokens ->
  stands_for tokens fs ->
  (length tokens <= fuel)%nat ->
  decode_samples fuel (join "," tokens) = Return (map Py.PFloat fs).
Proof.
  intros Hne Hcomma Hts Hfuel. unfold decode_samples.
  rewrite (split_join _ _ Hne Hcomma).
  exact (decode_loop_stands_for _ _ _ Hts Hfuel).
Qed.

(** X3 at work: two plain tokens. *)
Lemma decode_samples_of_joined_tokens_witness :
  decode_samples 2 (join "," ["-0.25"; "4e3"]) =
  Return (map Py.PFloat [(-0.25)%float; 4e3%float]).
Proof.
  apply decode_samples_of_joined_tokens.
  - discriminate.
  - repeat (apply List.Forall_cons; [reflexivity|]). apply List.Forall_nil.
  - repeat (apply stands_clean; [split; [cbn; lia | vm_compute; reflexivity]|]).
    apply stands_nil.
  - cbn. lia.
Defined.

(** ** Traces *)

Lemma build_x_axis_length (use_numpy : bool) (dpoints : nat) (xorigin xinc : float) :
  length (build_x_axis use_numpy dpoints xorigin xinc) = dpoints.
Proof.
  unfold build_x_axis, numpy_axis. destruct use_numpy;
    [apply np_linspace_length | apply repeated_addition_length].
Qed.

(** X6: a trace decoded from the two replies has a time entry and a value
    entry of the same length, every value a float, on the numpy path and the
    plain path alike. *)
Theorem decoded_trace_is_aligned (self : PYDHO800) (fuel : nat)
    (resppre respdata : string) (d : trace) :
  decode_trace self fuel resppre respdata = Return d ->
  exists xs ys,
    d !! "x" = Some xs /\ d !! "y" = Some ys
    /\ length xs = length ys
    /\ Forall is_float xs /\ Forall is_float ys.
Proof.
  unfold decode_trace, and_then.
  destruct (parse_preamble resppre) as [pre| |]; try discriminate.
  destruct (decode_samples fuel respdata) as [wd| |] eqn:Hwd; try discriminate.
  intros H; inversion H; subst d; clear H.
  eexists _, wd. split; [reflexivity|]. split; [reflexivity|].
  split; [rewrite length_map; apply build_x_axis_length|].
  split.
  - apply Forall_forall. intros x Hx. apply list_elem_of_fmap in Hx as (f & -> & _).
    eexists; reflexivity.
  - apply Forall_forall. exact (decoded_samples_are_floats_aux fuel respdata wd Hwd).
Qed.

(** X6 at work: two samples on the plain path. *)
Lemma decoded_trace_is_aligned_witness :
  exists xs ys,
    ({[ "x" := [Py.PFloat 0%float; Py.PFloat 1%float];
        "y" := [Py.PFloat 1.5%float; Py.PFloat 2.5%float] ]} : trace) !! "x" = Some xs
    /\ ({[ "x" := [Py.PFloat 0%float; Py.PFloat 1%float];
           "y" := [Py.PFloat 1.5%float; Py.PFloat 2.5%float] ]} : trace) !! "y" = Some ys
    /\ length xs = length ys
    /\ Forall is_float xs /\ Forall is_float ys.
Proof.
  exact (decoded_trace_is_aligned
           {| _rawMode := false; _samplePoints := 1000; _use_numpy := false;
              _nchannels := 4 |}
           2 "2,0,2,1,1,0,0,1,0,0" "1.5,2.5" _
           ltac:(vm_compute; reflexivity)).
Defined.

Lemma key_of_not_x (ch : Z) : key_of ch <> "x".
Proof.
  unfold key_of.
  change ("y" ++ pretty ch)%string with (String "y" (pretty ch)).
  discriminate.
Qed.

Lemma subscript_Return (d : trace) (key : string) (v : list Py.item) :
  subscript d key = Return v -> d !! key = Some v.
Proof. unfold subscript. destruct (d !! key); intros H; inversion H; reflexivity. Qed.

(** Later channels only add or replace value entries of the dictionary. *)
Lemma merge_channels_keeps (self : PYDHO800) (fuel : nat) (chs : list Z) :
  forall (d0 : trace) (l l' : link) (r : option trace),
    merge_channels self fuel chs (Some d0) l = (Return r, l') ->
    exists d, r = Some d
      /\ d !! "x" = d0 !! "x"
      /\ (forall k, is_Some (d0 !! k) -> is_Some (d !! k))
      /\ (forall ch, ch ∈ chs -> is_Some (d !! key_of ch)).
Proof.
  induction chs as [|ch rest IH]; intros d0 l l' r; cbn [merge_channels].
  - unfold ret. intros H; inversion H; subst. exists d0.
    repeat split; auto. intros ch Hch. inversion Hch.
  - unfold bind at 1.
    destruct (_query_waveform_channel self fuel ch l) as [[t| |] l1];
      try discriminate.
    unfold bind at 1. unfold lift at 1.
    destruct (subscript t "y") as [y| |]; try discriminate.
    intros H. apply IH in H as (d & -> & Hx & Hkeep & Hkeys).
    exists d. split; [reflexivity|]. split; [|split].
    + rewrite Hx. apply lookup_insert_ne. apply key_of_not_x.
    + intros k Hk. apply Hkeep.
      destruct (decide (key_of ch = k)) as [<- | Hne].
      * rewrite lookup_insert_eq. eauto.
      * rewrite lookup_insert_ne by assumption. assumption.
    + intros c Hc. apply elem_of_cons in Hc as [-> | Hc]; [|auto].
      apply Hkeep. rewrite lookup_insert_eq. eauto.
Qed.

(** X7: when a capture of a non-empty list of channels returns, the result is
    a dictionary whose time entry is that of the first channel captured and
    which has a value entry for every channel of the list. *)
Theorem merged_trace_keeps_first_time_axis (self : PYDHO800) (fuel : nat)
    (ch : Z) (rest : list Z) (l l' : link) (r : option trace) :
  _query_waveform self fuel (Channels (ch :: rest)) l = (Return r, l') ->
  exists (d first : trace) (l1 : link) (x : list Py.item),
    r = Some d
    /\ _query_waveform_channel self fuel ch l = (Return first, l1)
    /\ first !! "x" = Some x /\ d !! "x" = Some x
    /\ forall c, c ∈ ch :: rest -> is_Some (d !! key_of c).
Proof.
  cbn [_query_waveform merge_channels]. unfold bind at 1.
  destruct (_query_waveform_channel self fuel ch l) as [[t| |] l1] eqn:Hfirst;
    try discriminate.
  unfold bind at 1. unfold lift at 1.
  destruct (subscript t "x") as [x| |] eqn:Hx; try discriminate.
  unfold bind at 1. unfold lift at 1.
  destruct (subscript t "y") as [y| |] eqn:Hy; try discriminate.
  intros H. apply merge_channels_keeps in H as (d & -> & Hdx & Hkeep & Hkeys).
  exists d, t, l1, x. split; [reflexivity|]. split; [reflexivity|].
  split; [exact (subscript_Return _ _ _ Hx)|]. split.
  - rewrite Hdx. apply lookup_insert_eq.
  - intros c Hc. apply elem_of_cons in Hc as [-> | Hc]; [|auto].
    apply Hkeep.
    rewrite lookup_insert_ne by (intros E; symmetry in E; exact (key_of_not_x _ E)).
    rewrite lookup_singleton_eq. eauto.
Qed.

(** X7 at work: channels 0 and 2 captured in turn. *)
Lemma merged_trace_keeps_first_time_axis_witness :
  exists (d first : trace) (l1 : link) (x : list Py.item),
    Some ({[ "x" := [Py.PFloat 0%float; Py.PFloat 1%float];
             "y0" := [Py.PFloat 1.5%float; Py.PFloat 2.5%float];
             "y2" := [Py.PFloat 7%float] ]} : trace) = Some d
    /\ _query_waveform_channel
         {| _rawMode := false; _samplePoints := 10; _use_numpy := false;
            _nchannels := 4 |}
         2 0
         {| log := [];
            replies := [Some "2,0,2,1,1,0,0,1,0,0"; Some "1.5,2.5";
                        Some "2,0,1,1,3,9,0,1,0,0"; Some "7"] |} =
       (Return first, l1)
    /\ first !! "x" = Some x /\ d !! "x" = Some x
    /\ forall c, c ∈ [0; 2] -> is_Some (d !! key_of c).
Proof.
  exact (merged_trace_keeps_first_time_axis
           {| _rawMode := false; _samplePoints := 10; _use_numpy := false;
              _nchannels := 4 |}
           2 0 [2]
           {| log := [];
              replies := [Some "2,0,2,1,1,0,0,1,0,0"; Some "1.5,2.5";
                          Some "2,0,1,1,3,9,0,1,0,0"; Some "7"] |}
           _ _ ltac:(vm_compute; reflexivity)).
Defined.

(** ** A whole capture *)

(** The exchange proper, when both replies are there. *)
Lemma exchange_result (self : PYDHO800) (fuel : nat) (channel : Z)
    (resppre respdata : string) (lg : list sent) (rest : list (option string)) :
  (run! scpiCommand [Lit ":WAV:SOUR CHAN"; FInt (channel + 1)] in
   run! scpiCommand [Lit ":WAV:FORM ASCII"] in
   let! resppre := scpiQuery [Lit ":WAV:PRE?"] in
   let! respdata := scpiQuery [Lit ":WAV:DATA?"] in
   match resppre, respdata with
   | Some resppre, Some respdata =>
       lift (decode_trace self fuel resppre respdata)
   | _, _ => violation Py.FailedQueryTrace
   end) {| log := lg; replies := Some resppre :: Some respdata :: rest |} =
  (decode_trace self fuel resppre respdata,
   {| log := lg ++ [Command [Lit ":WAV:SOUR CHAN"; FInt (channel + 1)];
                    Command [Lit ":WAV:FORM ASCII"];
                    Query [Lit ":WAV:PRE?"];
                    Query [Lit ":WAV:DATA?"]];
      replies := rest |}).
Proof.
  unfold bind, scpiCommand, scpiQuery, lift. cbn [log replies].
  rewrite <- !app_assoc. reflexivity.
Qed.

(** X8: on a channel of the instrument, with the run state reported as STOP
    when raw mode is on, a preamble that decodes and a data reply of
    well-formed tokens, the capture sends the set-up in order and returns the
    dictionary with the samples under ['y'] and, under ['x'], as many times
    built from the preamble's x-origin and x-increment; the preamble's point
    count plays no part. *)
Theorem capture_composes (self : PYDHO800) (fuel : nat) (channel : Z)
    (resppre respdata : string) (p : preamble) (fs : list float)
    (lg : list sent) (rest : list (option string)) :
  0 <= channel < _nchannels self ->
  parse_preamble resppre = Return p ->
  stands_for (Py.split "," respdata) fs ->
  (length (Py.split "," respdata) <= fuel)%nat ->
  _query_waveform self fuel (Channel channel)
    {| log := lg;
       replies := gate_replies self ++ Some resppre :: Some respdata :: rest |} =
  (Return (Some ({[ "x" := map Py.PFloat
                             (build_x_axis (_use_numpy self) (length fs)
                                (xorigin p) (xinc p));
                    "y" := map Py.PFloat fs ]} : trace)),
   {| log := lg ++ gate_log self ++ capture_exchange self channel;
      replies := rest |}).
Proof.
  intros Hch Hpre Hts Hfuel.
  assert (Htrace : decode_trace self fuel resppre respdata =
            Return ({[ "x" := map Py.PFloat
                                (build_x_axis (_use_numpy self) (length fs)
                                   (xorigin p) (xinc p));
                       "y" := map Py.PFloat fs ]} : trace)).
  { unfold decode_trace, decode_samples. rewrite Hpre.
    rewrite (decode_loop_stands_for _ _ _ Hts Hfuel).
    cbn [and_then]. rewrite length_map. reflexivity. }
  cbn [_query_waveform]. unfold _query_waveform_channel.
  rewrite (channel_in_range _ _ Hch).
  unfold gate_replies, gate_log, capture_exchange, mode_commands.
  unfold bind at 1.
  destruct (_rawMode self).
  - erewrite bind_Return; [|vm_compute; reflexivity].
    rewrite exchange_result, Htrace.
    unfold ret. rewrite <- !app_assoc. reflexivity.
  - erewrite bind_Return; [|vm_compute; reflexivity].
    rewrite exchange_result, Htrace.
    unfold ret. rewrite <- !app_assoc. reflexivity.
Qed.

(** X8 at work: a raw-mode capture of channel 3 on the numpy path. *)
Lemma capture_composes_witness :
  _query_waveform
    {| _rawMode := true; _samplePoints := 1000; _use_numpy := true;
       _nchannels := 4 |}
    3 (Channel 3)
    {| log := [];
       replies := gate_replies
                    {| _rawMode := true; _samplePoints := 1000;
                       _use_numpy := true; _nchannels := 4 |}
                  ++ Some "2,2,3,1,0.5,10,0,1,0,0" :: Some "1,2,4" :: [None] |} =
  (Return (Some ({[ "x" := map Py.PFloat
                             (build_x_axis true
                                (length [1%float; 2%float; 4%float])
                                10%float 0.5%float);
                    "y" := map Py.PFloat [1%float; 2%float; 4%float] ]} : trace)),
   {| log := [] ++ gate_log
                    {| _rawMode := true; _samplePoints := 1000;
                       _use_numpy := true; _nchannels := 4 |}
                ++ capture_exchange
                     {| _rawMode := true; _samplePoints := 1000;
                        _use_numpy := true; _nchannels := 4 |} 3;
      replies := [None] |}).
Proof.
  refine (capture_composes
            {| _rawMode := true; _samplePoints := 1000; _use_numpy := true;
               _nchannels := 4 |}
            3 3 "2,2,3,1,0.5,10,0,1,0,0" "1,2,4"
            {| format := 2; data_type := 2; points := 3; avgcount := 1;
               xinc := 0.5%float; xorigin := 10%float; xref := 0%float;
               yinc := 1%float; yorigin := 0%float; yref := 0%float |}
            [1%float; 2%float; 4%float] [] [None] _ _ _ _).
  - cbn. lia.
  - vm_compute. reflexivity.
  - change (Py.split "," "1,2,4") with ["1"; "2"; "4"].
    repeat (apply stands_clean; [split; [cbn; lia | vm_compute; reflexivity]|]).
    apply stands_nil.
  - cbn. lia.
Defined.

(** X9: a channel outside the instrument's range is refused before anything
    is sent; on a channel of the instrument in normal mode, a missing
    preamble or data reply ends the capture in the protocol violation, after
    the whole exchange. *)
Theorem capture_refusals :
  (forall (self : PYDHO800) (fuel : nat) (channel : Z) (l : link),
      channel < 0 \/ _nchannels self <= channel ->
      _query_waveform self fuel (Channel channel) l =
      (Raise (Py.ValueError (Py.ChannelOutOfRange channel)), l))
  /\ (forall (self : PYDHO800) (fuel : nat) (channel : Z) (l : link),
         0 <= channel < _nchannels self ->
         _rawMode self = false ->
         (forall s, replies l !! 0%nat <> Some (Some s))
         \/ (forall s, replies l !! 1%nat <> Some (Some s)) ->
         _query_waveform self fuel (Channel channel) l =
         (Raise (Py.CommunicationError_ProtocolViolation Py.FailedQueryTrace),
          {| log := log l ++ capture_exchange self channel;
             replies := drop 2 (replies l) |})).
Proof.
  split.
  - intros self fuel channel l Hout. cbn [_query_waveform].
    unfold _query_waveform_channel.
    assert (Hbad : (channel <? 0) || (channel >=? _nchannels self) = true).
    { apply orb_true_iff. rewrite Z.geb_leb.
      destruct Hout; [left; apply Z.ltb_lt | right; apply Z.leb_le]; assumption. }
    rewrite Hbad. reflexivity.
  - intros self fuel channel [lg rp] Hch Hraw Hmissing. cbn [_query_waveform].
    unfold _query_waveform_channel.
    rewrite (channel_in_range _ _ Hch), Hraw.
    unfold capture_exchange, mode_commands. rewrite Hraw.
    cbn [replies] in Hmissing.
    unfold bind, scpiCommand, scpiQuery, lift, violation, raise, ret.
    cbn [log replies].
    destruct rp as [|[a|] [|[b|] rs]]; cbn [log replies drop];
      try (rewrite <- !app_assoc; reflexivity);
      exfalso; destruct Hmissing as [H | H];
      first [ exact (H a eq_refl) | exact (H b eq_refl) ].
Qed.

(** X9 at work: channel 4 of a four-channel instrument. *)
Lemma capture_refusals_witness :
  _query_waveform
    {| _rawMode := true; _samplePoints := 1000; _use_numpy := false;
       _nchannels := 4 |}
    5 (Channel 4) {| log := []; replies := [Some "STOP"] |} =
  (Raise (Py.ValueError (Py.ChannelOutOfRange 4)),
   {| log := []; replies := [Some "STOP"] |}).
Proof.
  exact (proj1 capture_refusals
           {| _rawMode := true; _samplePoints := 1000; _use_numpy := false;
              _nchannels := 4 |}
           5%nat 4 {| log := []; replies := [Some "STOP"] |}
           ltac:(right; cbn; lia)).
Defined.

(** ** Measurements *)

Lemma query_float_Return (text : fstring) (l l1 : link) (r : float) :
  query_float text l = (Return r, l1) ->
  exists s,
    replies l !! 0%nat = Some (Some s) /\ Py.float s = Some r
    /\ log l1 = log l ++ [Query text] /\ replies l1 = drop 1 (replies l).
Proof.
  unfold query_float, bind, scpiQuery, lift, raise, float_stmt.
  destruct (replies l) as [|[s|] rs]; try discriminate.
  destruct (Py.float s) as [v|] eqn:Hs; try discriminate.
  intros H; inversion H; subst. exists s. repeat split. assumption.
Qed.

Lemma sample_until_stable_accepts (fuel : nat) (text : fstring)
    (resp1 resp2 : float) (l : link) :
  keep_sampling resp1 resp2 = false ->
  sample_until_stable fuel text resp1 resp2 l =
  (Return (PrimFloat.div (PrimFloat.add resp1 resp2) 2%float), l).
Proof. intros H. destruct fuel; cbn [sample_until_stable]; rewrite H; reflexivity. Qed.

(** Where a value returned by the sampling loop comes from. *)
Lemma sample_until_stable_provenance (fuel : nat) (text : fstring) :
  forall (resp1 resp2 : float) (l l' : link) (x : float),
    keep_sampling resp1 resp2 = true ->
    sample_until_stable fuel text resp1 resp2 l = (Return x, l') ->
    exists (n : nat) (sa sb : string) (a b : float),
      replies l !! (2 * n)%nat = Some (Some sa)
      /\ replies l !! (2 * n + 1)%nat = Some (Some sb)
      /\ Py.float sa = Some a /\ Py.float sb = Some b
      /\ keep_sampling a b = false
      /\ x = PrimFloat.div (PrimFloat.add a b) 2%float
      /\ log l' = log l ++ repeat (Query text) (2 * n + 2)
      /\ replies l' = drop (2 * n + 2) (replies l).
Proof.
  induction fuel as [|fuel IH]; intros resp1 resp2 l l' x Hkeep;
    cbn [sample_until_stable]; rewrite Hkeep; [discriminate|].
  unfold bind at 1.
  destruct (query_float text l) as [[a1| |] l1] eqn:Q1; try discriminate.
  unfold bind at 1.
  destruct (query_float text l1) as [[b1| |] l2] eqn:Q2; try discriminate.
  apply query_float_Return in Q1 as (s1 & Hs1 & Hf1 & Hlog1 & Hrep1).
  apply query_float_Return in Q2 as (s2 & Hs2 & Hf2 & Hlog2 & Hrep2).
  rewrite Hrep1, lookup_drop in Hs2. cbn [Nat.add] in Hs2.
  rewrite Hrep1, drop_drop in Hrep2. cbn [Nat.add] in Hrep2.
  rewrite Hlog1, <- app_assoc in Hlog2. cbn [app] in Hlog2.
  destruct (keep_sampling a1 b1) eqn:Hnext.
  - intros Hrun. apply (IH _ _ _ _ _ Hnext) in Hrun
      as (n & sa & sb & a & b & Ha & Hb & Hfa & Hfb & Hacc & Hx & Hlog & Hrep).
    exists (S n), sa, sb, a, b.
    rewrite Hrep2, lookup_drop in Ha, Hb. rewrite Hrep2, drop_drop in Hrep.
    replace (2 * S n)%nat with (2 + 2 * n)%nat by lia.
    replace (2 + 2 * n + 1)%nat with (2 + (2 * n + 1))%nat by lia.
    replace (2 + 2 * n + 2)%nat with (2 + (2 * n + 2))%nat by lia.
    repeat split; try assumption.
    rewrite Hlog, Hlog2, <- app_assoc. reflexivity.
  - rewrite (sample_until_stable_accepts _ _ _ _ _ Hnext).
    intros H; inversion H; subst. exists 0%nat, s1, s2, a1, b1.
    repeat split; assumption.
Qed.

(** X10: a value returned by a phase measurement is the average of two
    consecutive replies, the pair with which the loop ended: the pair passes
    the loop's test, every reply before it was read and discarded in pairs,
    and the queries sent are twice the number of pairs read. *)
Theorem averaged_measurement_provenance (fuel : nat) (type : string)
    (channel refchannel : option Z) (l l' : link) (x : float) :
  get_channel_measurement fuel type channel refchannel l = (Return (Averaged x), l') ->
  exists (c r : Z) (n : nat) (sa sb : string) (a b : float),
    channel = Some c /\ refchannel = Some r
    /\ replies l !! (2 * n)%nat = Some (Some sa)
    /\ replies l !! (2 * n + 1)%nat = Some (Some sb)
    /\ Py.float sa = Some a /\ Py.float sb = Some b
    /\ keep_sampling a b = false
    /\ x = PrimFloat.div (PrimFloat.add a b) 2%float
    /\ log l' = log l ++ repeat (Query (phase_query type r c)) (2 * n + 2)
    /\ replies l' = drop (2 * n + 2) (replies l).
Proof.
  unfold get_channel_measurement, bind at 1, lift at 1.
  destruct channel as [c|]; cbn [out_of_0_3]; [|discriminate].
  destruct ((c <? 0) || (c >? 3)); [discriminate|].
  destruct (typestr_get typestr type) as [kind|]; [|discriminate].
  destruct (is_phase kind).
  - destruct refchannel as [r|]; [|discriminate].
    destruct ((r <? 0) || (r >? 3)); [discriminate|].
    unfold bind, ret.
    destruct (sample_until_stable _ _ _ _ _) as [[v| |] l1] eqn:Hrun;
      try discriminate.
    intros H; inversion H; subst v l1; clear H.
    apply sample_until_stable_provenance in Hrun; [|vm_compute; reflexivity].
    destruct Hrun as (n & sa & sb & a & b & H).
    exists c, r, n, sa, sb, a, b. repeat split; try apply H; reflexivity.
  - unfold bind, scpiQuery, violation, raise, ret.
    destruct (replies l) as [|[s|] rs]; discriminate.
Qed.

(** X10 at work: the second pair is the one that is accepted. *)
Lemma averaged_measurement_provenance_witness :
  exists (c r : Z) (n : nat) (sa sb : string) (a b : float),
    Some 0 = Some c /\ Some 1 = Some r
    /\ [Some "5.00"; Some "9.9e37"; Some "5.00"; Some "5.02"; Some "1"]
         !! (2 * n)%nat = Some (Some sa)
    /\ [Some "5.00"; Some "9.9e37"; Some "5.00"; Some "5.02"; Some "1"]
         !! (2 * n + 1)%nat = Some (Some sb)
    /\ Py.float sa = Some a /\ Py.float sb = Some b
    /\ keep_sampling a b = false
    /\ 5.01%float = PrimFloat.div (PrimFloat.add a b) 2%float
    /\ [Query (phase_query "RRPH" 1 0); Query (phase_query "RRPH" 1 0);
        Query (phase_query "RRPH" 1 0); Query (phase_query "RRPH" 1 0)] =
       [] ++ repeat (Query (phase_query "RRPH" r c)) (2 * n + 2)
    /\ [Some "1"] =
       drop (2 * n + 2)
         [Some "5.00"; Some "9.9e37"; Some "5.00"; Some "5.02"; Some "1"].
Proof.
  exact (averaged_measurement_provenance 2 "RRPH" (Some 0) (Some 1)
           {| log := [];
              replies := [Some "5.00"; Some "9.9e37"; Some "5.00"; Some "5.02";
                          Some "1"] |}
           {| log := [Query (phase_query "RRPH" 1 0); Query (phase_query "RRPH" 1 0);
                      Query (phase_query "RRPH" 1 0); Query (phase_query "RRPH" 1 0)];
              replies := [Some "1"] |}
           5.01%float ltac:(vm_compute; reflexivity)).
Defined.

Lemma query_float_raises_kind (text : fstring) (l l' : link) (e : Py.exn) :
  query_float text l = (Raise e, l') ->
  (exists what, e = Py.TypeError what)
  \/ (exists b t, e = Py.ValueError (Py.BadLiteral b t)).
Proof.
  unfold query_float, bind, lift, raise, float_stmt, scpiQuery.
  destruct (replies l) as [|[s|] rs].
  - intros H; inversion H; eauto.
  - destruct (Py.float s); intros H; inversion H; eauto.
  - intros H; inversion H; eauto.
Qed.

Lemma sample_until_stable_raises_kind (fuel : nat) (text : fstring) :
  forall (resp1 resp2 : float) (l l' : link) (e : Py.exn),
    sample_until_stable fuel text resp1 resp2 l = (Raise e, l') ->
    (exists what, e = Py.TypeError what)
    \/ (exists b t, e = Py.ValueError (Py.BadLiteral b t)).
Proof.
  induction fuel as [|fuel IH]; intros resp1 resp2 l l' e;
    cbn [sample_until_stable];
    destruct (keep_sampling resp1 resp2); try (unfold lift, ret; congruence).
  unfold bind.
  destruct (query_float text l) as [[r1| |] l1] eqn:Q1; try congruence.
  - destruct (query_float text l1) as [[r2| |] l2] eqn:Q2; try congruence.
    + apply IH.
    + intros H; inversion H; subst. eapply query_float_raises_kind, Q2.
  - intros H; inversion H; subst. eapply query_float_raises_kind, Q1.
Qed.

(** X11: when a measurement call ends in a [ValueError] other than that of
    an unreadable number, it is one of the four argument checks that raised
    it, and nothing has been sent to the instrument. *)
Theorem rejected_measurement_sends_nothing (fuel : nat) (type : string)
    (channel refchannel : option Z) (l l' : link) (v : Py.value_error) :
  get_channel_measurement fuel type channel refchannel l =
    (Raise (Py.ValueError v), l') ->
  (forall b t, v <> Py.BadLiteral b t) ->
  l' = l
  /\ (v = Py.InvalidChannelNumber
      \/ v = Py.UnsupportedMeasurementType type
      \/ v = Py.MissingRefchannelParameter type
      \/ v = Py.InvalidRefchannelNumber).
Proof.
  intros Hrun Hv. revert Hrun.
  unfold get_channel_measurement, bind at 1, lift at 1.
  destruct channel as [c|]; cbn [out_of_0_3]; [|discriminate].
  destruct ((c <? 0) || (c >? 3)); [intros H; inversion H; auto|].
  destruct (typestr_get typestr type) as [kind|]; [|intros H; inversion H; auto].
  destruct (is_phase kind).
  - destruct refchannel as [r|]; [|intros H; inversion H; auto 6].
    destruct ((r <? 0) || (r >? 3)); [intros H; inversion H; auto 6|].
    unfold bind, ret.
    destruct (sample_until_stable _ _ _ _ _) as [[x| |] l1] eqn:Hs;
      try discriminate.
    intros H; inversion H; subst.
    apply sample_until_stable_raises_kind in Hs
      as [(what & Hs) | (b & t & Hs)]; [discriminate|].
    inversion Hs; subst. exfalso. exact (Hv b t eq_refl).
  - unfold bind, scpiQuery, violation, raise, ret.
    destruct (replies l) as [|[s|] rs]; discriminate.
Qed.

(** X11 at work: a measurement type the driver does not know. *)
Lemma rejected_measurement_sends_nothing_witness :
  {| log := []; replies := [Some "1.0"; Some "1.0"] |} =
  {| log := []; replies := [Some "1.0"; Some "1.0"] |}
  /\ (Py.UnsupportedMeasurementType "PDUTY" = Py.InvalidChannelNumber
      \/ Py.UnsupportedMeasurementType "PDUTY" = Py.UnsupportedMeasurementType "PDUTY"
      \/ Py.UnsupportedMeasurementType "PDUTY" = Py.MissingRefchannelParameter "PDUTY"
      \/ Py.UnsupportedMeasurementType "PDUTY" = Py.InvalidRefchannelNumber).
Proof.
  exact (rejected_measurement_sends_nothing 3 "PDUTY" (Some 2) None
           {| log := []; replies := [Some "1.0"; Some "1.0"] |} _ _
           ltac:(vm_compute; reflexivity) ltac:(discriminate)).
Defined.

(** X17: for a measurement that is not a phase, on a channel 0 to 3, exactly
    one query naming that channel is sent and the reply text is returned as
    it came, not converted to a number; a missing reply is a protocol
    violation; the reference channel is not looked at. *)
Theorem plain_measurement_returns_reply_text (fuel : nat) (type : string)
    (kind : OscilloscopeMeasurementType) (channel : Z) (refchannel : option Z)
    (lg : list sent) (reply : option string) (rest : list (option string)) :
  typestr_get typestr type = Some kind ->
  is_phase kind = false ->
  0 <= channel <= 3 ->
  get_channel_measurement fuel type (Some channel) refchannel
    {| log := lg; replies := reply :: rest |} =
  (match reply with
   | Some text => Return (Reply text)
   | None => Raise (Py.CommunicationError_ProtocolViolation Py.FailedMeasurement)
   end,
   {| log := lg ++ [Query [Lit ":MEAS:ITEM? "; FStr type; Lit ",CHAN";
                           FInt (channel + 1)]];
      replies := rest |}).
Proof.
  intros Hkind Hphase Hch.
  unfold get_channel_measurement, bind at 1, lift at 1. cbn [out_of_0_3].
  rewrite (channel_in_0_3 _ Hch), Hkind, Hphase.
  unfold bind, scpiQuery, violation, raise, ret. cbn [replies log].
  destruct reply; reflexivity.
Qed.

(** X17 at work: a peak-to-peak reading that is no number at all. *)
Lemma plain_measurement_returns_reply_text_witness :
  get_channel_measurement 0 "VPP" (Some 3) (Some 17)
    {| log := []; replies := [Some "9.9E37 V"] |} =
  (Return (Reply "9.9E37 V"),
   {| log := [] ++ [Query [Lit ":MEAS:ITEM? "; FStr "VPP"; Lit ",CHAN"; FInt (3 + 1)]];
      replies := [] |}).
Proof.
  exact (plain_measurement_returns_reply_text 0 "VPP" VPP 3 (Some 17) []
           (Some "9.9E37 V") [] eq_refl eq_refl ltac:(lia)).
Defined.

(** ** Vertical scale: the top of the range and what is sent *)

Lemma match_scale_for_top (x : float) :
  PrimFloat.ltb 10%float x = true -> match_scale_for x = Py.NInt 10.
Proof.
  intros H. unfold match_scale_for, scan_scales, setableScales.
  cbn [fold_left].
  change (Py.as_float (Py.NInt 10)) with 10%float.
  rewrite H. reflexivity.
Qed.

(** X12: the range check has no upper end.  A requested scale that [float]
    converts and that, divided by the probe ratio, exceeds 10 is not refused:
    the resolver issues the top step 10, even for an infinite float.  The
    one request refused for its size is an [int] beyond the binary64 range:
    [float] raises [OverflowError] on it before anything is sent. *)
Theorem scale_above_top_step_is_clamped :
  (forall (channel : Z) (scale : Py.num) (requested ratio : float)
          (l l' : link),
      0 <= channel <= 3 ->
      Py.float_of_num scale = Some requested ->
      _get_channel_probe_ratio channel l = (Return (Some ratio), l') ->
      PrimFloat.ltb 10%float (PrimFloat.div requested ratio) = true ->
      _set_channel_scale channel scale l =
      (Return tt, {| log := log l' ++ [scale_command channel (Py.NInt 10)];
                     replies := replies l' |}))
  /\ (forall (channel n : Z) (l : link),
         0 <= channel <= 3 ->
         Py.float_overflow_bound <= Z.abs n ->
         _set_channel_scale channel (Py.NInt n) l =
         (Raise (Py.OverflowError "int too large to convert to float"), l)).
Proof.
  split.
  - intros channel scale requested ratio l l' Hch Hconv Hratio Hbig.
    unfold _set_channel_scale.
    rewrite (channel_in_0_3 _ Hch), Hconv. unfold bind. rewrite Hratio.
    rewrite (match_scale_for_top _ Hbig). reflexivity.
  - intros channel n l Hch Hbig. unfold _set_channel_scale.
    rewrite (channel_in_0_3 _ Hch). unfold Py.float_of_num.
    destruct (Z.ltb_spec (Z.abs n) Py.float_overflow_bound) as [Hlt|_];
      [lia | reflexivity].
Qed.

(** X12 at work: an infinite request behind a 10x probe, and the request
    [10 ** 400]. *)
Lemma scale_above_top_step_is_clamped_witness :
  _set_channel_scale 1 (Py.NFloat infinity) {| log := []; replies := [Some "10"] |} =
  (Return tt,
   {| log := [Query (channel_text 1 ":PROB?")] ++ [scale_command 1 (Py.NInt 10)];
      replies := [] |})
  /\ _set_channel_scale 1 (Py.NInt (10 ^ 400)) {| log := []; replies := [Some "10"] |} =
     (Raise (Py.OverflowError "int too large to convert to float"),
      {| log := []; replies := [Some "10"] |}).
Proof.
  split.
  - exact (proj1 scale_above_top_step_is_clamped 1 (Py.NFloat infinity)
             infinity 10%float
             {| log := []; replies := [Some "10"] |}
             {| log := [Query (channel_text 1 ":PROB?")]; replies := [] |}
             ltac:(lia) ltac:(reflexivity) ltac:(vm_compute; reflexivity)
             ltac:(vm_compute; reflexivity)).
  - exact (proj2 scale_above_top_step_is_clamped 1 (10 ^ 400)
             {| log := []; replies := [Some "10"] |}
             ltac:(lia) ltac:(vm_compute; discriminate)).
Defined.

(** X18: whatever the arguments and the instrument's reply, the resolver
    sends a scale command only when it returns, only after the probe-ratio
    query, and only with an entry of [setableScales]; when it raises, at most
    the probe-ratio query has been sent. *)
Theorem scale_command_only_with_listed_step (channel : Z) (scale : Py.num)
    (l l' : link) (o : outcome unit) :
  _set_channel_scale channel scale l = (o, l') ->
  (o = Return tt
   /\ exists step, step ∈ setableScales
        /\ log l' = log l ++ [Query (channel_text channel ":PROB?");
                              scale_command channel step])
  \/ ((exists e, o = Raise e)
      /\ (log l' = log l
          \/ log l' = log l ++ [Query (channel_text channel ":PROB?")])).
Proof.
  unfold _set_channel_scale, _get_channel_probe_ratio.
  destruct ((channel <? 0) || (channel >? 3)).
  { unfold raise. intros H; inversion H; subst. right. eauto. }
  destruct (Py.float_of_num scale) as [requested|].
  2:{ unfold raise. intros H; inversion H; subst. right. eauto. }
  unfold bind, scpiQuery, violation, raise, ret, scpiCommand.
  destruct (replies l) as [|[text|] rs]; cbn [log replies];
    try solve [intros H; inversion H; subst; right; cbn [log]; eauto].
  destruct (Py.float text) as [r|];
    [|solve [intros H; inversion H; subst; right; cbn [log]; eauto]].
  destruct (negb (Py.num_in (Py.NFloat r) supported_probe_ratios));
    [solve [intros H; inversion H; subst; right; cbn [log]; eauto]|].
  cbn [log replies].
  destruct (match_scale_for_floor (PrimFloat.div requested r))
    as [[Hm _] | (Hin & _ & _)].
  - rewrite Hm. cbn [negb]. change (Py.num_in (Py.NInt 0) setableScales) with false.
    cbn [negb]. intros H; inversion H; subst. right. cbn [log]. eauto.
  - pose proof setableScales_members as Hmem. rewrite Forall_forall in Hmem.
    rewrite (Hmem _ Hin). cbn [negb].
    intros H; inversion H; subst. left. split; [reflexivity|].
    eexists. split; [exact Hin|]. cbn [log]. rewrite <- app_assoc. reflexivity.
Qed.

(** X18 at work: a request of 1 V/div at probe ratio 1 sends the step 0.5. *)
Lemma scale_command_only_with_listed_step_witness :
  exists step,
    step ∈ setableScales
    /\ [Query (channel_text 0 ":PROB?"); scale_command 0 (Py.NFloat 5e-1%float)] =
       [] ++ [Query (channel_text 0 ":PROB?"); scale_command 0 step].
Proof.
  destruct (scale_command_only_with_listed_step 0 (Py.NInt 1)
              {| log := []; replies := [Some "1"] |}
              {| log := [Query (channel_text 0 ":PROB?");
                         scale_command 0 (Py.NFloat 5e-1%float)];
                 replies := [] |}
              (Return tt) ltac:(vm_compute; reflexivity))
    as [[_ Hsent] | [[e He] _]].
  - exact Hsent.
  - discriminate He.
Defined.

(** X13: [_get_channel_scale] never returns a scale.  A reply that reads as
    a float leads to the call that passes [self] twice and so to a
    [TypeError]; any other reply gives [None]. *)
Theorem _get_channel_scale_never_returns_a_scale (channel : Z) (l : link) :
  (forall x, fst (_get_channel_scale channel l) <> Return (Some x))
  /\ (0 <= channel <= 3 ->
      forall s x,
        replies l !! 0%nat = Some (Some s) ->
        Py.float s = Some x ->
        _get_channel_scale channel l =
        (Raise (Py.TypeError
                  "PYDHO800._get_channel_probe_ratio() takes 2 positional arguments but 3 were given"),
         {| log := log l ++ [Query (channel_text channel ":SCAL?")];
            replies := drop 1 (replies l) |}))
  /\ (0 <= channel <= 3 ->
      (forall s, replies l !! 0%nat = Some (Some s) -> Py.float s = None) ->
      fst (_get_channel_scale channel l) = Return None).
Proof.
  unfold _get_channel_scale, _get_channel_probe_ratio_with_self.
  split; [|split].
  - intros x. destruct ((channel <? 0) || (channel >? 3)); [discriminate|].
    unfold bind, scpiQuery, raise, ret.
    destruct (replies l) as [|[s|] rs]; cbn [fst]; try discriminate.
    destruct (Py.float s); discriminate.
  - intros Hch s x Hs Hx. rewrite (channel_in_0_3 _ Hch).
    unfold bind, scpiQuery, raise, ret.
    destruct (replies l) as [|r rs]; [discriminate|].
    cbn in Hs. inversion Hs; subst r. rewrite Hx. reflexivity.
  - intros Hch Hbad. rewrite (channel_in_0_3 _ Hch).
    unfold bind, scpiQuery, raise, ret.
    destruct (replies l) as [|[s|] rs]; try reflexivity.
    rewrite (Hbad s eq_refl). reflexivity.
Qed.

(** X13 at work: a perfectly good reply to the scale query. *)
Lemma _get_channel_scale_never_returns_a_scale_witness :
  _get_channel_scale 0 {| log := []; replies := [Some "0.5"; Some "10"] |} =
  (Raise (Py.TypeError
            "PYDHO800._get_channel_probe_ratio() takes 2 positional arguments but 3 were given"),
   {| log := [] ++ [Query (channel_text 0 ":SCAL?")];
      replies := drop 1 [Some "0.5"; Some "10"] |}).
Proof.
  exact (proj1 (proj2 (_get_channel_scale_never_returns_a_scale 0
                         {| log := []; replies := [Some "0.5"; Some "10"] |}))
           ltac:(lia) "0.5" 0.5%float eq_refl ltac:(vm_compute; reflexivity)).
Defined.

(** ** Run state and identification *)

Lemma run_mode_of_reply (l : link) :
  exists m,
    _get_run_mode l =
      (Return m, {| log := log l ++ [Query [Lit ":TRIG:STAT?"]];
                    replies := drop 1 (replies l) |})
    /\ m <> Some SINGLE
    /\ (m = Some STOP <-> replies l !! 0%nat = Some (Some "STOP")).
Proof.
  unfold _get_run_mode, bind, scpiQuery, ret.
  destruct (replies l) as [|[r|] rs]; cbn [lookup list_lookup drop].
  - eexists. split; [reflexivity|]. split; [discriminate|]. split; discriminate.
  - destruct (String.eqb r "STOP") eqn:Hstop.
    + apply String.eqb_eq in Hstop. subst r.
      eexists. split; [reflexivity|]. split; [discriminate|]. split; reflexivity.
    + apply String.eqb_neq in Hstop.
      eexists. split; [reflexivity|].
      destruct (String.eqb r "RUN" || String.eqb r "AUTO");
        [|destruct (String.eqb r "WAIT")];
        (split; [discriminate|]; split; [discriminate | congruence]).
  - eexists. split; [reflexivity|]. split; [discriminate|]. split; discriminate.
Qed.

(** X14: the run state read back is never [SINGLE], and it is [STOP] exactly
    when the reply is the text STOP; so a raw-mode capture of a channel of
    the instrument gets past its gate only on that reply, and is refused on
    any other or on none. *)
Theorem run_state_gate_opens_on_STOP_only :
  (forall l : link,
      exists m,
        fst (_get_run_mode l) = Return m
        /\ m <> Some SINGLE
        /\ (m = Some STOP <-> replies l !! 0%nat = Some (Some "STOP")))
  /\ (forall (self : PYDHO800) (fuel : nat) (channel : Z) (l : link),
         0 <= channel < _nchannels self ->
         _rawMode self = true ->
         replies l !! 0%nat <> Some (Some "STOP") ->
         _query_waveform self fuel (Channel channel) l =
         (Raise (Py.CommunicationError_ProtocolViolation Py.MustStopForRaw),
          {| log := log l ++ [Query [Lit ":TRIG:STAT?"]];
             replies := drop 1 (replies l) |})).
Proof.
  split.
  - intros l. destruct (run_mode_of_reply l) as (m & Hrun & Hm).
    exists m. rewrite Hrun. split; [reflexivity | exact Hm].
  - intros self fuel channel l Hch Hraw Hreply.
    destruct (run_mode_of_reply l) as (m & Hrun & _ & Hstop).
    cbn [_query_waveform]. unfold bind at 1.
    rewrite (raw_gate_closed self fuel channel l _ m Hch Hraw Hrun); [reflexivity|].
    intros Hm. apply Hreply, Hstop, Hm.
Qed.

(** X14 at work: the instrument answers STOP with a line feed still on it. *)
Lemma run_state_gate_opens_on_STOP_only_witness :
  _query_waveform
    {| _rawMode := true; _samplePoints := 1000; _use_numpy := false;
       _nchannels := 4 |}
    9 (Channel 0)
    {| log := []; replies := [Some (String "S" (String "T" (String "O" (String "P"
                                (String (ascii_of_nat 10) EmptyString)))))] |} =
  (Raise (Py.CommunicationError_ProtocolViolation Py.MustStopForRaw),
   {| log := [] ++ [Query [Lit ":TRIG:STAT?"]];
      replies := drop 1 [Some (String "S" (String "T" (String "O" (String "P"
                                (String (ascii_of_nat 10) EmptyString)))))] |}).
Proof.
  exact (proj2 run_state_gate_opens_on_STOP_only
           {| _rawMode := true; _samplePoints := 1000; _use_numpy := false;
              _nchannels := 4 |}
           9%nat 0
           {| log := []; replies := [Some (String "S" (String "T" (String "O" (String "P"
                                       (String (ascii_of_nat 10) EmptyString)))))] |}
           ltac:(cbn; lia) eq_refl ltac:(discriminate)).
Defined.

(** X15: [_identify] gives [None] without a reply, fails with [IndexError]
    on a reply of fewer than four comma-separated fields, and otherwise
    returns the first four fields as manufacturer, product, serial and
    version; one [*IDN?] query is sent in each case. *)
Theorem _identify_reads_four_fields (lg : list sent) (rest : list (option string)) :
  _identify {| log := lg; replies := None :: rest |} =
    (Return None, {| log := lg ++ [Query [Lit "*IDN?"]]; replies := rest |})
  /\ (forall resp,
         (length (Py.split "," resp) < 4)%nat ->
         _identify {| log := lg; replies := Some resp :: rest |} =
         (Raise Py.IndexError,
          {| log := lg ++ [Query [Lit "*IDN?"]]; replies := rest |}))
  /\ (forall resp m p s v more,
         Py.split "," resp = m :: p :: s :: v :: more ->
         exists d : gmap string string,
           _identify {| log := lg; replies := Some resp :: rest |} =
           (Return (Some d),
            {| log := lg ++ [Query [Lit "*IDN?"]]; replies := rest |})
           /\ d !! "manufacturer" = Some m /\ d !! "product" = Some p
           /\ d !! "serial" = Some s /\ d !! "version" = Some v).
Proof.
  split; [reflexivity|]. split.
  - intros resp Hshort.
    unfold _identify, _idn, bind, scpiQuery, lift, part, ret. cbn [replies log].
    destruct (Py.split "," resp) as [|a [|b [|c [|d more]]]]; try reflexivity.
    cbn [length] in Hshort. lia.
  - intros resp m p s v more Hsplit.
    unfold _identify, _idn, bind, scpiQuery, lift, part, ret. cbn [replies log].
    rewrite Hsplit. cbn [lookup list_lookup].
    eexists. split; [reflexivity|].
    repeat split; reflexivity.
Qed.

(** X15 at work: an identification string, put together from its fields. *)
Lemma _identify_reads_four_fields_witness :
  exists d : gmap string string,
    _identify {| log := [];
                 replies := [Some (join "," ["RIGOL TECHNOLOGIES"; "DHO804";
                                              "DHO8A254001234"; "00.01.02"])] |} =
    (Return (Some d), {| log := [] ++ [Query [Lit "*IDN?"]]; replies := [] |})
    /\ d !! "manufacturer" = Some "RIGOL TECHNOLOGIES"
    /\ d !! "product" = Some "DHO804"
    /\ d !! "serial" = Some "DHO8A254001234"
    /\ d !! "version" = Some "00.01.02".
Proof.
  exact (proj2 (proj2 (_identify_reads_four_fields [] []))
           (join "," ["RIGOL TECHNOLOGIES"; "DHO804"; "DHO8A254001234"; "00.01.02"])
           "RIGOL TECHNOLOGIES" "DHO804" "DHO8A254001234" "00.01.02" []
           ltac:(vm_compute; reflexivity)).
Defined.

(** ** The x-axis values by separate queries *)

(** X16: [_waveform_get_xscale] stops at the first query left unanswered
    with a protocol violation naming it; with three replies it has sent the
    three queries before it converts anything, returns the three floats when
    all read as floats, and raises a protocol violation otherwise. *)
Theorem _waveform_get_xscale_replies (lg : list sent) (rest : list (option string)) :
  _waveform_get_xscale {| log := lg; replies := None :: rest |} =
    (Raise (Py.CommunicationError_ProtocolViolation (Py.NoValidResponse "XINC")),
     {| log := lg ++ [Query [Lit ":WAV:XINC?"]]; replies := rest |})
  /\ (forall a,
         _waveform_get_xscale {| log := lg; replies := Some a :: None :: rest |} =
         (Raise (Py.CommunicationError_ProtocolViolation (Py.NoValidResponse "XORIGIN")),
          {| log := lg ++ [Query [Lit ":WAV:XINC?"]; Query [Lit ":WAV:XOR?"]];
             replies := rest |}))
  /\ (forall a b,
         _waveform_get_xscale
           {| log := lg; replies := Some a :: Some b :: None :: rest |} =
         (Raise (Py.CommunicationError_ProtocolViolation (Py.NoValidResponse "XREF")),
          {| log := lg ++ [Query [Lit ":WAV:XINC?"]; Query [Lit ":WAV:XOR?"];
                           Query [Lit ":WAV:XREF?"]];
             replies := rest |}))
  /\ (forall a b c,
         _waveform_get_xscale
           {| log := lg; replies := Some a :: Some b :: Some c :: rest |} =
         (match Py.float a, Py.float b, Py.float c with
          | Some xinc, Some xorigin, Some xref => Return (xinc, xorigin, xref)
          | _, _, _ =>
              Raise (Py.CommunicationError_ProtocolViolation Py.NoValidXScaleReply)
          end,
          {| log := lg ++ [Query [Lit ":WAV:XINC?"]; Query [Lit ":WAV:XOR?"];
                           Query [Lit ":WAV:XREF?"]];
             replies := rest |})).
Proof.
  unfold _waveform_get_xscale, bind, scpiQuery, violation, raise, ret.
  cbn [replies log].
  repeat split; intros; rewrite <- ?app_assoc; cbn [app]; try reflexivity.
  destruct (Py.float a), (Py.float b), (Py.float c); reflexivity.
Qed.

(** ** The two time axes, in general *)

(** X19 at work: three samples from 0 in steps of 1 end on 3, not on 2. *)
Lemma numpy_axis_last_witness :
  numpy_axis 3 0%float 1%float !! (3 - 1)%nat =
  Some (PrimFloat.add 0%float
          (PrimFloat.mul (Py.float_of_int (Z.of_nat 3)) 1%float)).
Proof. exact (numpy_axis_last 3 0%float 1%float ltac:(lia)). Defined.

(** X20: the plain time axis has one entry per sample, begins at the
    x-origin when there is a sample, and each entry is its predecessor plus
    the x-increment, in floating point. *)
Theorem repeated_addition_axis (dpoints : nat) (xorigin xinc : float) :
  length (repeated_addition dpoints xorigin xinc) = dpoints
  /\ ((0 < dpoints)%nat ->
      repeated_addition dpoints xorigin xinc !! 0%nat = Some xorigin)
  /\ (forall (k : nat) (a b : float),
         repeated_addition dpoints xorigin xinc !! k = Some a ->
         repeated_addition dpoints xorigin xinc !! S k = Some b ->
         b = PrimFloat.add a xinc).
Proof.
  split; [apply repeated_addition_length|].
  split; [apply repeated_addition_first|].
  intros k a b. apply repeated_addition_step.
Qed.

(** X20 at work: the second and third of four times. *)
Lemma repeated_addition_axis_witness :
  0.30000000000000004%float = PrimFloat.add 0.2%float 0.1%float.
Proof.
  exact (proj2 (proj2 (repeated_addition_axis 4 0.1%float 0.1%float))
           1%nat 0.2%float 0.30000000000000004%float
           ltac:(vm_compute; reflexivity) ltac:(vm_compute; reflexivity)).
Defined.

(** X22 at work: channels 1 and 2 requested in raw mode while running. *)
Lemma raw_gate_closed_for_lists_witness :
  _query_waveform
    {| _rawMode := true; _samplePoints := 1000; _use_numpy := false;
       _nchannels := 4 |}
    6 (Channels [1; 2]) {| log := []; replies := [Some "RUN"] |} =
  (Raise (Py.CommunicationError_ProtocolViolation Py.MustStopForRaw),
   {| log := [Query [Lit ":TRIG:STAT?"]]; replies := [] |}).
Proof.
  exact (raw_gate_closed_for_lists
           {| _rawMode := true; _samplePoints := 1000; _use_numpy := false;
              _nchannels := 4 |}
           6 1 [2] {| log := []; replies := [Some "RUN"] |}
           {| log := [Query [Lit ":TRIG:STAT?"]]; replies := [] |}
           (Some RUN) ltac:(cbn; lia) eq_refl eq_refl ltac:(discriminate)).
Defined.

(** ** How long the repair loop runs *)

(** An iteration that does not raise either shortens what is left to read or
    leaves a state on which every later iteration does the same nothing. *)
Lemma loop_body_progress (pre tl : list Py.item) (x : Py.item)
    (fn sn : option string) (st' : decoder) :
  loop_body {| wavedata := pre ++ x :: tl; i := length pre;
               first_num := fn; second_num := sn |} = Return st' ->
  (length (wavedata st') - i st' <= length tl)%nat
  \/ (loop_body st' = Return st' /\ (i st' < length (wavedata st'))%nat).
Proof.
  intros Hbody. pose proof Hbody as Hkeep. revert Hbody.
  unfold loop_body at 1. unfold try_block.
  cbn [wavedata i first_num second_num].
  rewrite list_lookup_middle by reflexivity.
  assert (Hsame : forall st, except_clause st = Return st' -> st' = st).
  { intros st. unfold except_clause.
    destruct (negb _); [|congruence].
    destruct (wavedata st !! i st); [|discriminate].
    destruct (first_num st), (second_num st); discriminate. }
  assert (Hstall : forall st,
            st = {| wavedata := pre ++ x :: tl; i := length pre;
                    first_num := fn; second_num := sn |} ->
            except_clause st = Return st' ->
            loop_body st' = Return st' /\ (i st' < length (wavedata st'))%nat).
  { intros st Hst H. apply Hsame in H. subst st' st. split; [exact Hkeep|].
    cbn [wavedata i]. rewrite length_app. cbn [length]. lia. }
  destruct x as [token|f].
  - destruct (14 <? String.length token)%nat.
    + destruct (Py.split1 "e" token) as [|head [|tail more]];
        try (intros H; right; exact (Hstall _ eq_refl H)).
      rewrite delete_middle.
      destruct (Py.float (head ++ "e" ++ Py.slice_to 3 tail)%string) as [f1|].
      * rewrite list_insert_at_middle.
        destruct (Py.float (Py.slice_from 3 tail)) as [f2|].
        -- intros H. inversion H; subst st'; clear H. left. cbn [wavedata i].
           unfold list_insert_at. rewrite length_app, length_take, length_cons.
           rewrite length_drop, !length_app. cbn [length]. lia.
        -- intros H. pose proof (Hsame _ H) as Hst. subst st'. right.
           split; [|cbn [wavedata i]; rewrite length_app; cbn [length]; lia].
           unfold loop_body, try_block. cbn [wavedata i].
           rewrite list_lookup_middle by reflexivity. exact H.
      * intros H. apply Hsame in H. subst st'. left. cbn [wavedata i].
        rewrite length_app. lia.
    + destruct (Py.float token) as [f|];
        [|intros H; right; exact (Hstall _ eq_refl H)].
      intros H. inversion H; subst st'; clear H. left. cbn [wavedata i].
      rewrite length_insert, length_app. cbn [length]. lia.
  - intros H; right; exact (Hstall _ eq_refl H).
Qed.

Lemma decode_loop_within_tokens (fuel : nat) :
  forall (n : nat) (st : decoder),
    (length (wavedata st) - i st <= n)%nat ->
    decode_loop fuel st <> OutOfFuel ->
    decode_loop n st = decode_loop fuel st.
Proof.
  induction fuel as [|fuel IH]; intros n st Hn Hrun.
  - cbn [decode_loop] in *.
    destruct (i st <? length (wavedata st))%nat eqn:Hi; [congruence|].
    apply decode_loop_finished, Nat.ltb_ge, Hi.
  - cbn [decode_loop] in Hrun |- *.
    destruct (i st <? length (wavedata st))%nat eqn:Hi.
    2:{ apply decode_loop_finished, Nat.ltb_ge, Hi. }
    apply Nat.ltb_lt in Hi.
    destruct n as [|n]; [lia|]. cbn [decode_loop].
    apply Nat.ltb_lt in Hi. rewrite Hi. apply Nat.ltb_lt in Hi.
    destruct (loop_body st) as [st'| |] eqn:Hbody; try reflexivity.
    destruct st as [wd k fn sn]. cbn [wavedata i] in *.
    destruct (lookup_lt_is_Some_2 wd k Hi) as [x Hx].
    pose proof (take_drop_middle _ _ _ Hx) as Hwd.
    assert (Hpre : length (take k wd) = k) by (apply length_take_le; lia).
    assert (Hbody' :
      loop_body {| wavedata := take k wd ++ x :: drop (S k) wd;
                   i := length (take k wd);
                   first_num := fn; second_num := sn |} = Return st')
      by (rewrite Hwd, Hpre; exact Hbody).
    apply loop_body_progress in Hbody' as [Hless | [Hstall Hlt]].
    + apply IH; [|assumption]. rewrite length_drop in Hless. lia.
    + exfalso. apply Hrun. apply decode_loop_stalled; assumption.
Qed.

(** X23: the repair loop either ends within one iteration per token of the
    data reply, with the same outcome however many more it is allowed, or it
    never ends: an outcome missing after that many iterations is missing
    after any number. *)
Theorem decode_ends_within_one_iteration_per_token (respdata : string) :
  (forall fuel : nat,
      decode_samples fuel respdata <> OutOfFuel ->
      decode_samples (length (Py.split "," respdata)) respdata =
      decode_samples fuel respdata)
  /\ (decode_samples (length (Py.split "," respdata)) respdata = OutOfFuel ->
      forall fuel : nat, decode_samples fuel respdata = OutOfFuel).
Proof.
  assert (Hbound : forall fuel : nat,
            decode_samples fuel respdata <> OutOfFuel ->
            decode_samples (length (Py.split "," respdata)) respdata =
            decode_samples fuel respdata).
  { intros fuel Hrun. unfold decode_samples in *.
    apply decode_loop_within_tokens; [|exact Hrun].
    unfold start_decoder. cbn [wavedata i]. rewrite length_map. lia. }
  split; [exact Hbound|].
  intros Hout fuel.
  destruct (decode_samples fuel respdata) as [wd|e|] eqn:Hrun; [| |reflexivity].
  - rewrite (Hbound fuel) in Hout; [|rewrite Hrun; discriminate].
    rewrite Hrun in Hout. discriminate.
  - rewrite (Hbound fuel) in Hout; [|rewrite Hrun; discriminate].
    rewrite Hrun in Hout. discriminate.
Qed.

(** X23 at work: with its three iterations spent the loop is still busy on
    [1.0,2.0,abc], so no number of iterations ends it. *)
Lemma decode_ends_within_one_iteration_per_token_witness :
  decode_samples 1000 "1.0,2.0,abc" = OutOfFuel.
Proof.
  exact (proj2 (decode_ends_within_one_iteration_per_token "1.0,2.0,abc")
           ltac:(vm_compute; reflexivity) 1000%nat).
Defined.
